(** * Functions.js: apartment and tenant management over Firestore

    A shallow embedding of the database functions of [Functions.js]
    ([createApartment], [updateApartment], [deleteApartment],
    [getAvailableApartments], [assignTenant], [removeTenant],
    [getApartmentTenants]) together with the part of the JavaScript
    semantics and of the Firestore client they rely on.

    - A Firestore document and a JavaScript object literal are finite maps
      from field names to JavaScript values ([document]).
    - The database maps a collection name to its documents, keyed by
      document id.
    - An [async] function is a computation in the monad [Js]: it threads the
      [world] (database, log of store operations, clock and id counters,
      console) and either returns a value or throws.  [await] is sequencing;
      the functions are taken to run one at a time.
    - The store is reachable: an operation fails only for a reason the
      client gives (refused data, a document that is missing or already
      there).  Query results come in the order in which the finite map
      enumerates its documents; no statement depends on that order.
    - Numbers are integers or [NaN]; field names are plain (no dotted
      paths) and document ids are valid path segments. *)

From stdpp Require Import gmap strings list fin_maps pretty.
From Stdlib Require Import ZArith.

Open Scope Z_scope.

(** ** JavaScript values *)

Inductive value : Type :=
  | VUndef
  | VNull
  | VBool (b : bool)
  | VNum (n : Z)
  | VNaN
  | VStr (s : string)
  | VTime (ms : Z)              (* a Firestore [Timestamp] *)
  | VArr (xs : list string).    (* an array of strings, e.g. [amenities] *)

#[global] Instance value_eq_dec : EqDecision value.
Proof. solve_decision. Defined.

Abbreviation document := (gmap string value).
Abbreviation collection := (gmap string (gmap string value)).
Abbreviation database := (gmap string (gmap string (gmap string value))).

(** [o.f]: reading a property that is not there gives [undefined]. *)
Definition prop (o : document) (f : string) : value :=
  default VUndef (o !! f).

(** [{...base, ...over}]: later properties win. *)
Definition spread (base over : document) : document := over ∪ base.

(** An object literal [{k1: v1, ..., kn: vn}] with distinct keys. *)
Definition obj (fields : list (string * value)) : document :=
  list_to_map fields.

(** ToBoolean. *)
Definition truthy (v : value) : bool :=
  match v with
  | VUndef | VNull | VNaN => false
  | VBool b => b
  | VNum n => negb (n =? 0)
  | VStr s => negb (bool_decide (s = ""))
  | VTime _ | VArr _ => true
  end.

(** [typeof v === 'number'] *)
Definition typeof_number (v : value) : bool :=
  match v with
  | VNum _ | VNaN => true
  | _ => false
  end.

(** [a === b]: primitives by value, [NaN] equal to nothing, and two objects
    that come from different places (a stored field and an argument) are
    never the same object. *)
Definition strict_eq (a b : value) : bool :=
  match a, b with
  | VUndef, VUndef | VNull, VNull => true
  | VBool x, VBool y => bool_decide (x = y)
  | VNum x, VNum y => x =? y
  | VStr x, VStr y => bool_decide (x = y)
  | _, _ => false
  end.

(** What the JavaScript engine, the Firestore client configuration
    ([firebaseConfig], not part of this file) and the environment fix. *)
Class Runtime : Type := {
  (* StringToNumber; [None] is NaN *)
  str_to_number : string → option Z;
  (* [Timestamp.prototype.valueOf] *)
  timestamp_value_of : Z → string;
  (* the [ignoreUndefinedProperties] setting of the Firestore instance *)
  ignoreUndefinedProperties : bool;
  (* the time, in milliseconds, read by the n-th [new Date()] *)
  clock : nat → Z;
  (* the n-th automatically generated document id *)
  auto_id : nat → string
}.

(** ** The world and the monad of asynchronous functions *)

Inductive filter_ : Type :=
  | WhereEq (field : string) (s : string)   (* where(field, '==', s) *)
  | WhereLt (field : string) (k : Z).       (* where(field, '<', k)  *)

(** The operations sent to the store, in the order they are issued. *)
Inductive op : Type :=
  | OpGet (coll id : string)
  | OpGetDocs (coll : string) (filters : list filter_)
  | OpAdd (coll id : string) (data : document)
  | OpUpdate (coll id : string) (data : document)
  | OpDelete (coll id : string).

Definition is_write (o : op) : bool :=
  match o with
  | OpAdd _ _ _ | OpUpdate _ _ _ | OpDelete _ _ => true
  | OpGet _ _ | OpGetDocs _ _ => false
  end.

Inductive exn : Type :=
  | Error (msg : string)            (* new Error(msg) *)
  | TypeError (msg : string)
  | FirebaseError (code : string).

Inductive result (A : Type) : Type :=
  | Ok (a : A)
  | Throw (e : exn).
Arguments Ok {A} a.
Arguments Throw {A} e.

#[global] Instance filter_eq_dec : EqDecision filter_.
Proof. solve_decision. Defined.
#[global] Instance op_eq_dec : EqDecision op.
Proof. solve_decision. Defined.
#[global] Instance exn_eq_dec : EqDecision exn.
Proof. solve_decision. Defined.
#[global] Instance result_eq_dec {A} `{EqDecision A} : EqDecision (result A).
Proof. solve_decision. Defined.

Record world : Type := World {
  db : database;
  trace : list op;
  ticks : nat;       (* number of clock reads so far *)
  ids : nat;         (* number of generated ids so far *)
  console : list string
}.

Record Js (A : Type) : Type := MkJs { run : world → result A * world }.
Arguments MkJs {A} run.
Arguments run {A} j w.

#[global] Instance Js_ret : MRet Js := λ A a, MkJs (λ w, (Ok a, w)).
#[global] Instance Js_bind : MBind Js := λ A B f m,
  MkJs (λ w, match run m w with
             | (Ok a, w') => run (f a) w'
             | (Throw e, w') => (Throw e, w')
             end).
#[global] Instance Js_throw : MThrow exn Js := λ A e, MkJs (λ w, (Throw e, w)).

(** [try { body } catch (error) { console.error(label, error); throw error; }] *)
Definition try_log {A} (label : string) (body : Js A) : Js A :=
  MkJs (λ w, match run body w with
             | (Ok a, w') => (Ok a, w')
             | (Throw e, w') =>
                 (Throw e, World (db w') (trace w') (ticks w') (ids w')
                                 (console w' ++ [label]))
             end).

(** [try { body } catch (error) { console.error(label, error); }]: the
    error is logged and not thrown again. *)
Definition try_swallow (label : string) (body : Js unit) : Js unit :=
  MkJs (λ w, match run body w with
             | (Ok a, w') => (Ok a, w')
             | (Throw e, w') =>
                 (Ok tt, World (db w') (trace w') (ticks w') (ids w')
                               (console w' ++ [label]))
             end).

(** ** Conversions and operators *)

Section Functions.
Context `{RT : Runtime}.

(** ToPrimitive: an array prints as its elements joined by commas, a
    timestamp as its [valueOf] string. *)
Definition to_primitive (v : value) : value :=
  match v with
  | VArr xs => VStr (String.concat "," xs)
  | VTime ms => VStr (timestamp_value_of ms)
  | _ => v
  end.

(** ToNumber of a primitive; [None] is NaN. *)
Definition to_number (v : value) : option Z :=
  match to_primitive v with
  | VUndef | VNaN => None
  | VNull => Some 0
  | VBool b => Some (if b then 1 else 0)
  | VNum n => Some n
  | VStr s => str_to_number s
  | VTime _ | VArr _ => None
  end.

(** [v >= k] and [v <= k] for a numeric literal [k]: false when [v] is not
    a number after conversion. *)
Definition js_ge (v : value) (k : Z) : bool :=
  match to_number v with
  | Some n => k <=? n
  | None => false
  end.

Definition js_le (v : value) (k : Z) : bool :=
  match to_number v with
  | Some n => n <=? k
  | None => false
  end.

(** [v + 1]: concatenation when [v] is a string after ToPrimitive,
    numeric addition otherwise. *)
Definition js_plus_one (v : value) : value :=
  match to_primitive v with
  | VStr s => VStr (s +:+ "1")
  | p => match to_number p with
         | Some n => VNum (n + 1)
         | None => VNaN
         end
  end.

(** [Timestamp.fromDate(new Date())] *)
Definition now : Js value :=
  MkJs (λ w, (Ok (VTime (clock (ticks w))),
              World (db w) (trace w) (S (ticks w)) (ids w) (console w))).

(** The writes issued so far. *)
Definition the_writes (w : world) : list op := List.filter is_write (trace w).

(** ** The Firestore client *)

Definition coll_of (d : database) (c : string) : collection :=
  default ∅ (d !! c).

Definition log (o : op) (w : world) : world :=
  World (db w) (trace w ++ [o]) (ticks w) (ids w) (console w).

Definition set_coll (c : string) (docs : collection) (w : world) : world :=
  World (<[c := docs]> (db w)) (trace w) (ticks w) (ids w) (console w).

(** A document snapshot of a query: [doc.id] and [doc.data()]. *)
Definition snapshot : Type := string * document.

(** A document reference: collection and id. *)
Definition docref : Type := string * string.

(** What is callable under the name [doc]: the function imported from
    [firebase/firestore], or, where a callback parameter of that name
    shadows it, a document snapshot. *)
Inductive callee : Type :=
  | FnDoc
  | ObjSnapshot (s : snapshot).

(** The module-level binding of [doc]. *)
Definition doc : callee := FnDoc.

(** [f(db, coll, id)]: calling what is not a function is a TypeError;
    the imported function wants a string for the id. *)
Definition call (f : callee) (coll : string) (id : value) : Js docref :=
  match f with
  | FnDoc =>
      match id with
      | VStr s => mret (coll, s)
      | _ => mthrow (FirebaseError "invalid-argument")
      end
  | ObjSnapshot _ => mthrow (TypeError "doc is not a function")
  end.

(** [getDoc(ref)]: [None] is a snapshot whose [exists()] is false,
    [Some d] one whose [data()] is [d]. *)
Definition getDoc (r : docref) : Js (option document) :=
  MkJs (λ w, (Ok (coll_of (db w) r.1 !! r.2), log (OpGet r.1 r.2) w)).

Definition matches (d : document) (f : filter_) : bool :=
  match f with
  | WhereEq field s =>
      match d !! field with
      | Some (VStr s') => bool_decide (s' = s)
      | _ => false
      end
  | WhereLt field k =>
      (* only numbers are in range of a numeric bound; the client orders
         NaN below every number *)
      match d !! field with
      | Some (VNum n) => n <? k
      | Some VNaN => true
      | _ => false
      end
  end.

(** [getDocs(query(collection(db, c), ...filters))]; [getDocs(collection(db, c))]
    is the case of no filter.  The result lists [docs]. *)
Definition getDocs (c : string) (filters : list filter_) : Js (list snapshot) :=
  MkJs (λ w,
    (Ok (List.filter (λ s : snapshot, forallb (matches s.2) filters)
           (map_to_list (coll_of (db w) c))),
     log (OpGetDocs c filters) w)).

(** The client refuses [undefined] field values unless it is configured
    to drop them. *)
Definition is_undef (v : value) : bool :=
  match v with VUndef => true | _ => false end.

Definition parse_data (data : document) : result document :=
  if ignoreUndefinedProperties
  then Ok (filter (λ kv : string * value, is_undef kv.2 = false) data)
  else if bool_decide (map_Forall (λ _ v, is_undef v = false) data)
       then Ok data
       else Throw (FirebaseError "invalid-argument").

(** [addDoc(collection(db, c), data)]: a new id, and the document must not
    exist yet. *)
Definition addDoc (c : string) (data : document) : Js docref :=
  MkJs (λ w,
    match parse_data data with
    | Throw e => (Throw e, w)
    | Ok d =>
        let id := auto_id (ids w) in
        let w1 := World (db w) (trace w) (ticks w) (S (ids w)) (console w) in
        match coll_of (db w) c !! id with
        | Some _ => (Throw (FirebaseError "already-exists"), log (OpAdd c id d) w1)
        | None =>
            (Ok (c, id),
             set_coll c (<[id := d]> (coll_of (db w) c)) (log (OpAdd c id d) w1))
        end
    end).

(** [updateDoc(ref, data)]: the document must exist; the given fields
    replace the stored ones. *)
Definition updateDoc (r : docref) (data : document) : Js unit :=
  MkJs (λ w,
    match parse_data data with
    | Throw e => (Throw e, w)
    | Ok d =>
        match coll_of (db w) r.1 !! r.2 with
        | None => (Throw (FirebaseError "not-found"), log (OpUpdate r.1 r.2 d) w)
        | Some old =>
            (Ok tt,
             set_coll r.1 (<[r.2 := d ∪ old]> (coll_of (db w) r.1))
               (log (OpUpdate r.1 r.2 d) w))
        end
    end).

(** [deleteDoc(ref)] *)
Definition deleteDoc (r : docref) : Js unit :=
  MkJs (λ w,
    (Ok tt, set_coll r.1 (delete r.2 (coll_of (db w) r.1)) (log (OpDelete r.1 r.2) w))).

(** [Promise.all(xs.map(async x => f x))]: every callback is started, in
    order; the result is the list of results, or the first rejection. *)
Fixpoint promise_all {A B} (f : A → Js B) (xs : list A) : Js (list B) :=
  match xs with
  | [] => mret []
  | x :: rest =>
      MkJs (λ w,
        match run (f x) w with
        | (Ok b, w1) =>
            match run (promise_all f rest) w1 with
            | (Ok bs, w2) => (Ok (b :: bs), w2)
            | (Throw e, w2) => (Throw e, w2)
            end
        | (Throw e, w1) => (Throw e, (run (promise_all f rest) w1).2)
        end)
  end.

(** ** Generic document functions *)

(** [addDocument(collectionName, data)] *)
Definition addDocument (collectionName : string) (data : document) : Js string :=
  try_log "Error adding document: " (
    createdAt ← now;
    docRef ← addDoc collectionName (spread data (obj [("createdAt", createdAt)]));
    mret docRef.2).

(** [v?.toDate()]: [undefined] for [null] and [undefined], the date of a
    timestamp (in milliseconds), and a TypeError for a value without a
    [toDate] method. *)
Definition optional_toDate (v : value) : result (option Z) :=
  match v with
  | VUndef | VNull => Ok None
  | VTime ms => Ok (Some ms)
  | _ => Throw (TypeError "toDate is not a function")
  end.

(** [v || null] *)
Definition or_null (v : value) : value := if truthy v then v else VNull.

(** An element of the result of [fetchDocuments]: the object
    [{id, ...data, createdAt, createdBy}] as its other fields, its
    [createdAt] date ([None] is [undefined]) and its [createdBy]. *)
Record fetchedDocument : Type := FetchedDocument {
  fetched_fields : document;
  fetched_createdAt : option Z;
  fetched_createdBy : value
}.

#[global] Instance fetchedDocument_eq_dec : EqDecision fetchedDocument.
Proof. solve_decision. Defined.

(** [xs.map(f)] for a callback that may throw: the first exception ends
    the loop. *)
Fixpoint map_throwing {A B} (f : A → result B) (xs : list A) : result (list B) :=
  match xs with
  | [] => Ok []
  | x :: rest =>
      match f x with
      | Throw e => Throw e
      | Ok b =>
          match map_throwing f rest with
          | Throw e => Throw e
          | Ok bs => Ok (b :: bs)
          end
      end
  end.

(** [fetchDocuments(collectionName)] *)
Definition fetchDocuments (collectionName : string) : Js (list fetchedDocument) :=
  try_log "Error fetching documents:" (
    querySnapshot ← getDocs collectionName [];
    let documents :=
      map_throwing (λ doc : snapshot,
        let data := doc.2 in
        match optional_toDate (prop data "createdAt") with
        | Throw e => Throw e
        | Ok date =>
            Ok (FetchedDocument
                  (delete "createdBy" (delete "createdAt"
                     (spread (obj [("id", VStr doc.1)]) data)))
                  date
                  (or_null (prop data "createdBy")))
        end) querySnapshot in
    match documents with
    | Ok documents => mret documents
    | Throw e => mthrow e
    end).

(** [fetchDocumentByID(docRef)]; [None] is a reference that is [null] or
    [undefined]. *)
Definition fetchDocumentByID (docRef : option docref) : Js document :=
  try_log "Error fetching document:" (
    match docRef with
    | None => mthrow (Error "Document reference is required")
    | Some docRef =>
        docSnap ← getDoc docRef;
        match docSnap with
        | None => mthrow (Error "Document not found")
        | Some data => mret data
        end
    end).

(** [updateDocument(collectionName, id, data)] *)
Definition updateDocument (collectionName id : string) (data : document)
  : Js unit :=
  docRef ← call doc collectionName (VStr id);
  try_log "Error updating document: " (updateDoc docRef data).


(** [updateStatus(requestId, newStatus)] *)
Definition updateStatus (requestId : string) (newStatus : value) : Js unit :=
  try_swallow "Error updating status:" (
    requestRef ← call doc "repairRequests" (VStr requestId);
    updateDoc requestRef (obj [("status", newStatus)])).

(** ** Apartment management *)

(** [createApartment(apartmentData)] *)
Definition createApartment (apartmentData : document) : Js document :=
  try_log "Error creating apartment:" (
    if negb (truthy (prop apartmentData "unitNumber"))
       || negb (truthy (prop apartmentData "rooms"))
       || negb (truthy (prop apartmentData "monthlyRent"))
       || negb (truthy (prop apartmentData "maxOccupants"))
    then mthrow (Error "Missing required fields: unitNumber, rooms, monthlyRent, maxOccupants")
    else
    if negb (typeof_number (prop apartmentData "rooms"))
       || js_le (prop apartmentData "rooms") 0
       || negb (typeof_number (prop apartmentData "monthlyRent"))
       || js_le (prop apartmentData "monthlyRent") 0
       || negb (typeof_number (prop apartmentData "maxOccupants"))
       || js_le (prop apartmentData "maxOccupants") 0
    then mthrow (Error "Invalid numeric values: rooms, monthlyRent, and maxOccupants must be positive numbers")
    else
    querySnapshot ← getDocs "apartments" [];
    let existingApartment :=
      List.find (λ d : snapshot,
        strict_eq (prop d.2 "unitNumber") (prop apartmentData "unitNumber"))
        querySnapshot in
    if existingApartment is Some _
    then mthrow (Error "Apartment with this unit number already exists")
    else
    createdAt ← now;
    updatedAt ← now;
    let newApartment :=
      spread apartmentData
        (obj [("status", VStr "available");
              ("currentOccupants", VNum 0);
              ("createdAt", createdAt);
              ("updatedAt", updatedAt)]) in
    docRef ← addDoc "apartments" newApartment;
    mret (spread (obj [("id", VStr docRef.2)]) newApartment)).

(** [updateApartment(apartmentId, updateData)] *)
Definition updateApartment (apartmentId : string) (updateData : document)
  : Js document :=
  try_log "Error updating apartment:" (
    apartmentRef ← call doc "apartments" (VStr apartmentId);
    apartmentDoc ← getDoc apartmentRef;
    if apartmentDoc is None then mthrow (Error "Apartment not found") else
    if truthy (prop updateData "floor")
       && (negb (typeof_number (prop updateData "floor"))
           || js_le (prop updateData "floor") 0)
    then mthrow (Error "Invalid floor number") else
    if truthy (prop updateData "rooms")
       && (negb (typeof_number (prop updateData "rooms"))
           || js_le (prop updateData "rooms") 0)
    then mthrow (Error "Invalid number of rooms") else
    if truthy (prop updateData "monthlyRent")
       && (negb (typeof_number (prop updateData "monthlyRent"))
           || js_le (prop updateData "monthlyRent") 0)
    then mthrow (Error "Invalid monthly rent") else
    if truthy (prop updateData "maxOccupants")
       && (negb (typeof_number (prop updateData "maxOccupants"))
           || js_le (prop updateData "maxOccupants") 0)
    then mthrow (Error "Invalid maximum occupants") else
    (if truthy (prop updateData "unitNumber")
     then
       querySnapshot ← getDocs "apartments" [];
       let existingApartment :=
         List.find (λ d : snapshot,
           negb (bool_decide (d.1 = apartmentId))
           && strict_eq (prop d.2 "unitNumber") (prop updateData "unitNumber"))
           querySnapshot in
       if existingApartment is Some _
       then mthrow (Error "Apartment with this unit number already exists")
       else mret tt
     else mret tt);;
    updatedAt ← now;
    let updatedData := spread updateData (obj [("updatedAt", updatedAt)]) in
    updateDoc apartmentRef updatedData;;
    mret (spread (obj [("id", VStr apartmentId)]) updatedData)).

(** [deleteApartment(apartmentId)] *)
Definition deleteApartment (apartmentId : string) : Js document :=
  try_log "Error deleting apartment:" (
    apartmentRef ← call doc "apartments" (VStr apartmentId);
    apartmentDoc ← getDoc apartmentRef;
    if apartmentDoc is None then mthrow (Error "Apartment not found") else
    querySnapshot ← getDocs "tenantApartments" [];
    let activeTenants :=
      List.filter (λ d : snapshot,
        strict_eq (prop d.2 "apartmentId") (VStr apartmentId)
        && strict_eq (prop d.2 "status") (VStr "active"))
        querySnapshot in
    if (0 <? length activeTenants)%nat
    then mthrow (Error "Cannot delete apartment with active tenants")
    else
    deleteDoc apartmentRef;;
    mret (obj [("success", VBool true);
               ("message", VStr "Apartment deleted successfully")])).

(** [getAllApartments()] *)
Definition getAllApartments : Js (list document) :=
  try_log "Error fetching apartments:" (
    querySnapshot ← getDocs "apartments" [];
    let apartments :=
      map (λ d : snapshot, spread (obj [("id", VStr d.1)]) d.2) querySnapshot in
    mret apartments).

(** [getAvailableApartments()] *)
Definition getAvailableApartments : Js (list document) :=
  try_log "Error fetching available apartments:" (
    querySnapshot ← getDocs "apartments" [WhereLt "currentOccupants" 3];
    let apartments :=
      map (λ d : snapshot, spread (obj [("id", VStr d.1)]) d.2) querySnapshot in
    mret apartments).

(** ** Tenant assignment *)

(** The [leaseData] argument: the instants, in milliseconds, that
    [new Date(leaseData.startDate)] and [new Date(leaseData.endDate)]
    denote. *)
Record leaseData : Type := LeaseData { startDate : Z; endDate : Z }.

(** [assignTenant(userId, apartmentId, leaseData)] *)
Definition assignTenant (userId apartmentId : string) (lease : leaseData)
  : Js document :=
  try_log "Error assigning tenant:" (
    apartmentRef ← call doc "apartments" (VStr apartmentId);
    apartmentDoc ← getDoc apartmentRef;
    match apartmentDoc with
    | None => mthrow (Error "Apartment not found")
    | Some apartment =>
    if js_ge (prop apartment "currentOccupants") 3
    then mthrow (Error "Apartment is at maximum capacity (3 occupants)")
    else
    userRef ← call doc "users" (VStr userId);
    userDoc ← getDoc userRef;
    if userDoc is None then mthrow (Error "User not found") else
    userSnapshot ← getDocs "tenantApartments"
                     [WhereEq "userId" userId; WhereEq "status" "active"];
    if userSnapshot is _ :: _
    then mthrow (Error "User already has an active apartment")
    else
    createdAt ← now;
    updatedAt ← now;
    let tenantApartmentData :=
      obj [("userId", VStr userId);
           ("apartmentId", VStr apartmentId);
           ("status", VStr "active");
           ("role", VStr "primary");
           ("leaseStartDate", VTime (startDate lease));
           ("leaseEndDate", VTime (endDate lease));
           ("monthlyRent", prop apartment "monthlyRent");
           ("createdAt", createdAt);
           ("updatedAt", updatedAt)] in
    tenantApartmentRef ← addDoc "tenantApartments" tenantApartmentData;
    apartmentUpdatedAt ← now;
    updateDoc apartmentRef
      (obj [("currentOccupants", js_plus_one (prop apartment "currentOccupants"));
            ("updatedAt", apartmentUpdatedAt)]);;
    userUpdatedAt ← now;
    updateDoc userRef
      (obj [("apartmentId", VStr apartmentId);
            ("updatedAt", userUpdatedAt)]);;
    mret (spread (obj [("id", VStr tenantApartmentRef.2)]) tenantApartmentData)
    end).


(** An element of the result of [getApartmentTenants]: the object
    [{id, ...tenantData, user}] as its scalar fields and its [user]
    property ([None] is [null]). *)
Record tenant : Type := Tenant { fields : document; user : option document }.

#[global] Instance tenant_eq_dec : EqDecision tenant.
Proof. solve_decision. Defined.

(** [getApartmentTenants(apartmentId)].  The callback's parameter is named
    [doc], so inside it [doc(db, 'users', ...)] calls the snapshot. *)
Definition getApartmentTenants (apartmentId : string) : Js (list tenant) :=
  try_log "Error fetching apartment tenants:" (
    querySnapshot ← getDocs "tenantApartments"
                      [WhereEq "apartmentId" apartmentId; WhereEq "status" "active"];
    tenants ← promise_all (λ doc : snapshot,
      let tenantData := doc.2 in
      userRef ← call (ObjSnapshot doc) "users" (prop tenantData "userId");
      userDoc ← getDoc userRef;
      mret (Tenant (delete "user" (spread (obj [("id", VStr doc.1)]) tenantData))
                   userDoc)) querySnapshot;
    mret tenants).

(** [getAllUsers()] *)
Definition getAllUsers : Js (list document) :=
  try_log "Error fetching users:" (
    querySnapshot ← getDocs "users" [];
    let users :=
      map (λ d : snapshot, spread (obj [("id", VStr d.1)]) d.2) querySnapshot in
    mret users).

End Functions.

(** * Vocabulary of the statements *)

Section Vocabulary.
Context `{RT : Runtime}.

(** Nothing was written between [w] and [w']. *)
Definition unchanged (w w' : world) : Prop :=
  db w' = db w ∧ the_writes w' = the_writes w.

Definition apartments (w : world) : collection := coll_of (db w) "apartments".
Definition users (w : world) : collection := coll_of (db w) "users".
Definition tenantApartments (w : world) : collection :=
  coll_of (db w) "tenantApartments".

(** [d] is a tenancy record of user [userId] with status active. *)
Definition active_tenancy (userId : string) (d : document) : Prop :=
  d !! "userId" = Some (VStr userId) ∧ d !! "status" = Some (VStr "active").

Definition has_active_tenancy (w : world) (userId : string) : Prop :=
  ∃ id d, tenantApartments w !! id = Some d ∧ active_tenancy userId d.

(** Some tenancy record of apartment [apartmentId] has status active. *)
Definition has_active_tenant (w : world) (apartmentId : string) : Prop :=
  ∃ id d, tenantApartments w !! id = Some d
          ∧ d !! "apartmentId" = Some (VStr apartmentId)
          ∧ d !! "status" = Some (VStr "active").

(** The object [{id: doc.id, ...doc.data()}] built from a snapshot. *)
Definition with_id (id : string) (d : document) : document :=
  spread (obj [("id", VStr id)]) d.


(** The errors of [assignTenant], under the names the specification
    gives them. *)
Definition ApartmentNotFound : exn := Error "Apartment not found".
Definition UserNotFound : exn := Error "User not found".
Definition CapacityExceeded : exn :=
  Error "Apartment is at maximum capacity (3 occupants)".
Definition DuplicateActiveTenancy : exn :=
  Error "User already has an active apartment".

(** The record [assignTenant] builds, and the two updates it sends, at
    clock readings [t]. *)
Definition tenancy_record (userId apartmentId : string) (lease : leaseData)
    (apartment : document) (t : nat) : document :=
  obj [("userId", VStr userId);
       ("apartmentId", VStr apartmentId);
       ("status", VStr "active");
       ("role", VStr "primary");
       ("leaseStartDate", VTime (startDate lease));
       ("leaseEndDate", VTime (endDate lease));
       ("monthlyRent", prop apartment "monthlyRent");
       ("createdAt", VTime (clock t));
       ("updatedAt", VTime (clock (S t)))].

Definition occupants_update (apartment : document) (t : nat) : document :=
  obj [("currentOccupants", js_plus_one (prop apartment "currentOccupants"));
       ("updatedAt", VTime (clock t))].

Definition user_update (apartmentId : string) (t : nat) : document :=
  obj [("apartmentId", VStr apartmentId); ("updatedAt", VTime (clock t))].

(** The ways a call [assignTenant userId apartmentId lease] started in [w]
    can end: result and final world. *)
Inductive assign_run (w : world) (userId apartmentId : string)
    (lease : leaseData) : result document → world → Prop :=
  | assign_no_apartment w' :
      apartments w !! apartmentId = None →
      unchanged w w' →
      assign_run w userId apartmentId lease (Throw ApartmentNotFound) w'
  | assign_full apt w' :
      apartments w !! apartmentId = Some apt →
      js_ge (prop apt "currentOccupants") 3 = true →
      unchanged w w' →
      assign_run w userId apartmentId lease (Throw CapacityExceeded) w'
  | assign_no_user apt w' :
      apartments w !! apartmentId = Some apt →
      js_ge (prop apt "currentOccupants") 3 = false →
      users w !! userId = None →
      unchanged w w' →
      assign_run w userId apartmentId lease (Throw UserNotFound) w'
  | assign_duplicate apt usr w' :
      apartments w !! apartmentId = Some apt →
      js_ge (prop apt "currentOccupants") 3 = false →
      users w !! userId = Some usr →
      has_active_tenancy w userId →
      unchanged w w' →
      assign_run w userId apartmentId lease (Throw DuplicateActiveTenancy) w'
  | assign_rejected_data apt usr e w' :
      apartments w !! apartmentId = Some apt →
      js_ge (prop apt "currentOccupants") 3 = false →
      users w !! userId = Some usr →
      ¬ has_active_tenancy w userId →
      parse_data (tenancy_record userId apartmentId lease apt (ticks w))
        = Throw e →
      unchanged w w' →
      assign_run w userId apartmentId lease (Throw e) w'
  | assign_id_taken apt usr d w' :
      apartments w !! apartmentId = Some apt →
      js_ge (prop apt "currentOccupants") 3 = false →
      users w !! userId = Some usr →
      ¬ has_active_tenancy w userId →
      parse_data (tenancy_record userId apartmentId lease apt (ticks w))
        = Ok d →
      is_Some (tenantApartments w !! auto_id (ids w)) →
      db w' = db w →
      the_writes w' =
        the_writes w ++ [OpAdd "tenantApartments" (auto_id (ids w)) d] →
      assign_run w userId apartmentId lease
        (Throw (FirebaseError "already-exists")) w'
  | assign_done apt usr d w' :
      apartments w !! apartmentId = Some apt →
      js_ge (prop apt "currentOccupants") 3 = false →
      users w !! userId = Some usr →
      ¬ has_active_tenancy w userId →
      parse_data (tenancy_record userId apartmentId lease apt (ticks w))
        = Ok d →
      tenantApartments w !! auto_id (ids w) = None →
      db w' =
        <["users" :=
            <[userId := user_update apartmentId (3 + ticks w) ∪ usr]> (users w)]>
        (<["apartments" :=
            <[apartmentId := occupants_update apt (2 + ticks w) ∪ apt]>
              (apartments w)]>
        (<["tenantApartments" :=
            <[auto_id (ids w) := d]> (tenantApartments w)]> (db w))) →
      the_writes w' =
        the_writes w ++
        [OpAdd "tenantApartments" (auto_id (ids w)) d;
         OpUpdate "apartments" apartmentId (occupants_update apt (2 + ticks w));
         OpUpdate "users" userId (user_update apartmentId (3 + ticks w))] →
      assign_run w userId apartmentId lease
        (Ok (spread (obj [("id", VStr (auto_id (ids w)))])
               (tenancy_record userId apartmentId lease apt (ticks w)))) w'.

End Vocabulary.

(** * Vocabulary for the further properties *)

Section MoreVocabulary.
Context `{RT : Runtime}.

(** No operation was sent to the store between [w] and [w']. *)
Definition untouched (w w' : world) : Prop :=
  db w' = db w ∧ trace w' = trace w.

(** The [createdAt] of [d] is absent, [null] or a timestamp. *)
Definition has_date (d : document) : bool :=
  match prop d "createdAt" with
  | VUndef | VNull | VTime _ => true
  | _ => false
  end.

(** The two validations of [createApartment]. *)
Definition missing_required (apartmentData : document) : bool :=
  negb (truthy (prop apartmentData "unitNumber"))
  || negb (truthy (prop apartmentData "rooms"))
  || negb (truthy (prop apartmentData "monthlyRent"))
  || negb (truthy (prop apartmentData "maxOccupants")).

Definition invalid_numbers (apartmentData : document) : bool :=
  negb (typeof_number (prop apartmentData "rooms"))
  || js_le (prop apartmentData "rooms") 0
  || negb (typeof_number (prop apartmentData "monthlyRent"))
  || js_le (prop apartmentData "monthlyRent") 0
  || negb (typeof_number (prop apartmentData "maxOccupants"))
  || js_le (prop apartmentData "maxOccupants") 0.

(** The test [updateApartment] applies to each numeric field. *)
Definition refused_number (v : value) : bool :=
  truthy v && (negb (typeof_number v) || js_le v 0).

(** Some apartment has unit number [v], in the sense of [===]. *)
Definition unit_taken (w : world) (v : value) : Prop :=
  ∃ id d, apartments w !! id = Some d
          ∧ strict_eq (prop d "unitNumber") v = true.

(** Some apartment other than [apartmentId] has unit number [v]. *)
Definition unit_taken_by_other (w : world) (apartmentId : string) (v : value)
  : Prop :=
  ∃ id d, apartments w !! id = Some d ∧ id ≠ apartmentId
          ∧ strict_eq (prop d "unitNumber") v = true.

(** The document [createApartment] builds at clock reading [t]. *)
Definition new_apartment (apartmentData : document) (t : nat) : document :=
  spread apartmentData
    (obj [("status", VStr "available");
          ("currentOccupants", VNum 0);
          ("createdAt", VTime (clock t));
          ("updatedAt", VTime (clock (S t)))]).

Definition MissingRequiredFields : exn :=
  Error "Missing required fields: unitNumber, rooms, monthlyRent, maxOccupants".
Definition InvalidNumericValues : exn :=
  Error "Invalid numeric values: rooms, monthlyRent, and maxOccupants must be positive numbers".
Definition UnitNumberExists : exn :=
  Error "Apartment with this unit number already exists".

(** The ways a call [createApartment apartmentData] started in [w] can
    end. *)
Inductive create_run (w : world) (apartmentData : document)
  : result document → world → Prop :=
  | create_missing w' :
      missing_required apartmentData = true →
      untouched w w' →
      create_run w apartmentData (Throw MissingRequiredFields) w'
  | create_invalid w' :
      missing_required apartmentData = false →
      invalid_numbers apartmentData = true →
      untouched w w' →
      create_run w apartmentData (Throw InvalidNumericValues) w'
  | create_duplicate w' :
      missing_required apartmentData = false →
      invalid_numbers apartmentData = false →
      unit_taken w (prop apartmentData "unitNumber") →
      unchanged w w' →
      create_run w apartmentData (Throw UnitNumberExists) w'
  | create_rejected_data e w' :
      missing_required apartmentData = false →
      invalid_numbers apartmentData = false →
      ¬ unit_taken w (prop apartmentData "unitNumber") →
      parse_data (new_apartment apartmentData (ticks w)) = Throw e →
      unchanged w w' →
      create_run w apartmentData (Throw e) w'
  | create_id_taken d w' :
      missing_required apartmentData = false →
      invalid_numbers apartmentData = false →
      ¬ unit_taken w (prop apartmentData "unitNumber") →
      parse_data (new_apartment apartmentData (ticks w)) = Ok d →
      is_Some (apartments w !! auto_id (ids w)) →
      db w' = db w →
      create_run w apartmentData (Throw (FirebaseError "already-exists")) w'
  | create_done d w' :
      missing_required apartmentData = false →
      invalid_numbers apartmentData = false →
      ¬ unit_taken w (prop apartmentData "unitNumber") →
      parse_data (new_apartment apartmentData (ticks w)) = Ok d →
      apartments w !! auto_id (ids w) = None →
      db w' = <["apartments" := <[auto_id (ids w) := d]> (apartments w)]> (db w) →
      the_writes w' = the_writes w ++ [OpAdd "apartments" (auto_id (ids w)) d] →
      create_run w apartmentData
        (Ok (spread (obj [("id", VStr (auto_id (ids w)))])
               (new_apartment apartmentData (ticks w)))) w'.

(** The ways a call [updateApartment apartmentId updateData] started in
    [w] can end; [t] is the clock reading of the update. *)
Inductive update_run (w : world) (apartmentId : string) (updateData : document)
  : result document → world → Prop :=
  | update_not_found w' :
      apartments w !! apartmentId = None →
      unchanged w w' →
      update_run w apartmentId updateData (Throw ApartmentNotFound) w'
  | update_invalid apt field msg w' :
      apartments w !! apartmentId = Some apt →
      (field, msg) ∈ [("floor", "Invalid floor number");
                      ("rooms", "Invalid number of rooms");
                      ("monthlyRent", "Invalid monthly rent");
                      ("maxOccupants", "Invalid maximum occupants")] →
      refused_number (prop updateData field) = true →
      unchanged w w' →
      update_run w apartmentId updateData (Throw (Error msg)) w'
  | update_duplicate apt w' :
      apartments w !! apartmentId = Some apt →
      (∀ field, field ∈ ["floor"; "rooms"; "monthlyRent"; "maxOccupants"] →
         refused_number (prop updateData field) = false) →
      truthy (prop updateData "unitNumber") = true →
      unit_taken_by_other w apartmentId (prop updateData "unitNumber") →
      unchanged w w' →
      update_run w apartmentId updateData (Throw UnitNumberExists) w'
  | update_rejected_data apt e w' :
      apartments w !! apartmentId = Some apt →
      (∀ field, field ∈ ["floor"; "rooms"; "monthlyRent"; "maxOccupants"] →
         refused_number (prop updateData field) = false) →
      (truthy (prop updateData "unitNumber") = true →
         ¬ unit_taken_by_other w apartmentId (prop updateData "unitNumber")) →
      parse_data (spread updateData
                    (obj [("updatedAt", VTime (clock (ticks w)))])) = Throw e →
      unchanged w w' →
      update_run w apartmentId updateData (Throw e) w'
  | update_done apt d w' :
      apartments w !! apartmentId = Some apt →
      (∀ field, field ∈ ["floor"; "rooms"; "monthlyRent"; "maxOccupants"] →
         refused_number (prop updateData field) = false) →
      (truthy (prop updateData "unitNumber") = true →
         ¬ unit_taken_by_other w apartmentId (prop updateData "unitNumber")) →
      parse_data (spread updateData
                    (obj [("updatedAt", VTime (clock (ticks w)))])) = Ok d →
      db w' = <["apartments" := <[apartmentId := d ∪ apt]> (apartments w)]> (db w) →
      the_writes w' = the_writes w ++ [OpUpdate "apartments" apartmentId d] →
      update_run w apartmentId updateData
        (Ok (spread (obj [("id", VStr apartmentId)])
               (spread updateData
                  (obj [("updatedAt", VTime (clock (ticks w)))])))) w'.

(** No two documents of [docs] share a unit number that is a non-empty
    string. *)
Definition unique_units (docs : collection) : Prop :=
  ∀ i j d e s,
    docs !! i = Some d → docs !! j = Some e →
    s ≠ "" →
    d !! "unitNumber" = Some (VStr s) → e !! "unitNumber" = Some (VStr s) →
    i = j.

Definition unique_unit_numbers (w : world) : Prop :=
  unique_units (apartments w).


End MoreVocabulary.

(** * Sample data *)

(** A runtime with the default client configuration, a clock that
    advances by one millisecond per reading, and ids [auto0], [auto1], ... *)
Definition sample_runtime : Runtime :=
  {| str_to_number := λ _, None;
     timestamp_value_of := λ _, "";
     ignoreUndefinedProperties := false;
     clock := λ n, 1700000000000 + Z.of_nat n;
     auto_id := λ n, "auto" +:+ pretty n |}.

(** Unit 1A holds two tenants of at most two, unit 2B is empty, unit 3C
    holds three of at most five. *)
Definition unit_1A : document :=
  obj [("unitNumber", VStr "1A"); ("rooms", VNum 2); ("monthlyRent", VNum 900);
       ("maxOccupants", VNum 2); ("currentOccupants", VNum 2);
       ("status", VStr "available")].

Definition unit_2B : document :=
  obj [("unitNumber", VStr "2B"); ("rooms", VNum 3); ("monthlyRent", VNum 1200);
       ("maxOccupants", VNum 2); ("currentOccupants", VNum 0);
       ("status", VStr "available")].

Definition unit_3C : document :=
  obj [("unitNumber", VStr "3C"); ("rooms", VNum 4); ("monthlyRent", VNum 1500);
       ("maxOccupants", VNum 5); ("currentOccupants", VNum 3);
       ("status", VStr "available")].

Definition sample_world : world :=
  World {[ "apartments" := {[ "a1" := unit_1A; "a2" := unit_2B; "a3" := unit_3C ]};
           "users" := {[ "u1" := obj [("name", VStr "Xavier")];
                         "u2" := obj [("name", VStr "Yara")] ]} ]}
        [] 0 0 [].

(** 2024-01-01, 2024-06-01 and 2024-12-31, 00:00 UTC, in milliseconds. *)
Definition jan_1 : Z := 1704067200000.
Definition jun_1 : Z := 1717200000000.
Definition dec_31 : Z := 1735603200000.

(** A world with one empty apartment and one user, and one with two
    repair requests and a collection whose only document has a number as
    [createdAt]. *)
Definition small_world : world :=
  World {[ "apartments" := {[ "a1" := unit_2B ]};
           "users" := {[ "u1" := obj [("name", VStr "Xavier")] ]} ]}
        [] 0 0 [].

Definition leaking_tap : document :=
  obj [("title", VStr "Leaking tap"); ("status", VStr "open");
       ("createdAt", VTime 1690000000000); ("createdBy", VStr "u1")].

Definition broken_window : document :=
  obj [("title", VStr "Broken window"); ("status", VStr "open");
       ("createdAt", VTime 1695000000000)].

Definition requests_world : world :=
  World {[ "repairRequests" := {[ "r1" := leaking_tap; "r2" := broken_window ]};
           "imported" := {[ "i1" := obj [("title", VStr "Old entry");
                                         ("createdAt", VNum 1680000000000)] ]} ]}
        [] 0 0 [].

(** A new apartment, as a caller would describe it. *)
Definition unit_9Z : document :=
  obj [("unitNumber", VStr "9Z"); ("rooms", VNum 2);
       ("monthlyRent", VNum 1000); ("maxOccupants", VNum 2)].

(** * Properties *)

(** Closed goals, conjunct by conjunct, by evaluation of the decision
    procedure of each. *)
Ltac by_evaluation :=
  intros; repeat match goal with |- _ ∧ _ => split end; compute_done.

Section Properties.
Context `{RT : Runtime}.

(** ** The store *)

Lemma coll_of_insert_eq (d : database) c docs :
  coll_of (<[c := docs]> d) c = docs.
Proof. unfold coll_of. by rewrite lookup_insert_eq. Qed.

Lemma coll_of_insert_ne (d : database) c c' docs :
  c ≠ c' → coll_of (<[c := docs]> d) c' = coll_of d c'.
Proof. intros Hne. unfold coll_of. by rewrite lookup_insert_ne. Qed.

Lemma parse_data_defined (data : document) :
  map_Forall (λ _ v, is_undef v = false) data → parse_data data = Ok data.
Proof.
  intros Hall. unfold parse_data.
  destruct ignoreUndefinedProperties.
  - f_equal. apply map_filter_id. intros k v Hkv. exact (Hall k v Hkv).
  - by rewrite bool_decide_eq_true_2.
Qed.

Lemma parse_data_keeps (data d : document) k v :
  parse_data data = Ok d → data !! k = Some v → is_undef v = false →
  d !! k = Some v.
Proof.
  unfold parse_data. intros Hp Hk Hv.
  destruct ignoreUndefinedProperties.
  - inversion Hp; subst. by apply map_lookup_filter_Some.
  - case_bool_decide; by simplify_eq.
Qed.

Lemma js_plus_one_defined v : is_undef (js_plus_one v) = false.
Proof.
  unfold js_plus_one.
  destruct (to_primitive v) eqn:E; try done; by destruct (to_number _).
Qed.

Lemma parse_occupants_update apt t :
  parse_data (occupants_update apt t) = Ok (occupants_update apt t).
Proof.
  apply parse_data_defined. unfold occupants_update, obj; simpl.
  intros k v. rewrite !lookup_insert, lookup_empty.
  repeat case_decide; intros; simplify_eq; auto using js_plus_one_defined.
Qed.

Lemma parse_user_update a t :
  parse_data (user_update a t) = Ok (user_update a t).
Proof.
  apply parse_data_defined. unfold user_update, obj; simpl.
  intros k v. rewrite !lookup_insert, lookup_empty.
  repeat case_decide; intros; by simplify_eq.
Qed.

(** A query with two equality filters finds a document exactly when one
    has both fields. *)
Lemma where_eq_query_nonempty (docs : collection) f1 v1 f2 v2 :
  List.filter (λ s : snapshot,
      forallb (matches s.2) [WhereEq f1 v1; WhereEq f2 v2])
    (map_to_list docs) ≠ []
  ↔ ∃ id d, docs !! id = Some d
            ∧ d !! f1 = Some (VStr v1) ∧ d !! f2 = Some (VStr v2).
Proof.
  split.
  - intros Hne.
    destruct (List.filter _ _) as [|[id d] rest] eqn:E; [done|].
    assert (Hin : In (id, d) (List.filter (λ s : snapshot,
      forallb (matches s.2) [WhereEq f1 v1; WhereEq f2 v2])
      (map_to_list docs))) by (rewrite E; by left).
    apply filter_In in Hin as [Hin Hm].
    apply list_elem_of_In, elem_of_map_to_list in Hin.
    exists id, d. split; [done|].
    simpl in Hm.
    destruct (d !! f1) as [[]|]; try done.
    destruct (d !! f2) as [[]|]; try (by rewrite andb_false_r in Hm).
    apply andb_prop in Hm as [H1 H2]. apply andb_prop in H2 as [H2 _].
    apply bool_decide_eq_true_1 in H1, H2. by subst.
  - intros (id & d & Hd & Hu & Hs) Hnil.
    assert (Hin : In (id, d) (List.filter (λ s : snapshot,
      forallb (matches s.2) [WhereEq f1 v1; WhereEq f2 v2])
      (map_to_list docs))).
    { apply filter_In. split.
      - by apply list_elem_of_In, elem_of_map_to_list.
      - simpl. rewrite Hu, Hs. by rewrite !bool_decide_eq_true_2. }
    by rewrite Hnil in Hin.
Qed.

Lemma active_query_nonempty (tas : collection) userId :
  List.filter (λ s : snapshot,
      forallb (matches s.2) [WhereEq "userId" userId; WhereEq "status" "active"])
    (map_to_list tas) ≠ []
  ↔ ∃ id d, tas !! id = Some d ∧ active_tenancy userId d.
Proof. apply where_eq_query_nonempty. Qed.

Lemma filter_all {A} (l : list A) : List.filter (λ _, true) l = l.
Proof. induction l as [|x l IH]; [done|]. simpl. by rewrite IH. Qed.

Lemma strict_eq_str (d : document) f s :
  strict_eq (prop d f) (VStr s) = true ↔ d !! f = Some (VStr s).
Proof.
  unfold prop. destruct (d !! f) as [[]|]; simpl; try (split; by intros).
  rewrite bool_decide_eq_true. split; intros; by simplify_eq.
Qed.

End Properties.

Section Assign.
Context `{RT : Runtime}.

Lemma the_writes_read w o :
  is_write o = false → the_writes (log o w) = the_writes w.
Proof.
  intros Ho. unfold the_writes, log; simpl.
  rewrite List.filter_app; simpl. rewrite Ho. apply app_nil_r.
Qed.

Lemma assignTenant_run w userId apartmentId lease :
  assign_run w userId apartmentId lease
    (run (assignTenant userId apartmentId lease) w).1
    (run (assignTenant userId apartmentId lease) w).2.
Proof.
  unfold assignTenant, try_log, doc.
  cbn [run mbind Js_bind call mret Js_ret getDoc fst snd].
  fold (apartments w).
  destruct (apartments w !! apartmentId) as [apt|] eqn:Hapt.
  2:{ cbn. apply assign_no_apartment; [done|]. split; [done|].
      unfold the_writes; cbn. rewrite List.filter_app; cbn. apply app_nil_r. }
  destruct (js_ge (prop apt "currentOccupants") 3) eqn:Hge.
  { cbn. eapply assign_full; [done..|]. split; [done|].
      unfold the_writes; cbn. rewrite List.filter_app; cbn. apply app_nil_r. }
  cbn [run mbind Js_bind call mret Js_ret getDoc fst snd log db].
  fold (users w).
  destruct (users w !! userId) as [usr|] eqn:Husr.
  2:{ cbn. eapply assign_no_user; [done..|]. split; [done|].
      unfold the_writes; cbn. rewrite !List.filter_app; cbn. by rewrite !app_nil_r. }
  cbn [run mbind Js_bind call mret Js_ret getDoc getDocs fst snd log db].
  fold (tenantApartments w).
  pose proof (active_query_nonempty (tenantApartments w) userId) as Hq.
  match goal with
  | |- context [List.filter ?f ?l] => destruct (List.filter f l) as [|s rest]
  end.
  2:{ cbn. eapply assign_duplicate; [done..| |].
      - apply Hq. done.
      - split; [done|]. unfold the_writes; cbn.
        rewrite !List.filter_app; cbn. by rewrite !app_nil_r. }
  assert (Hnone : ¬ has_active_tenancy w userId).
  { intros H. by apply Hq in H. }
  clear Hq.
  cbn [run mbind Js_bind mret Js_ret now addDoc fst snd log db ticks ids trace console].
  fold (tenancy_record userId apartmentId lease apt (ticks w)).
  destruct (parse_data (tenancy_record userId apartmentId lease apt (ticks w)))
    as [d|e] eqn:Hparse.
  2:{ cbn. eapply assign_rejected_data; [done..|]. split; [done|].
      unfold the_writes; cbn. rewrite !List.filter_app; cbn. by rewrite !app_nil_r. }
  fold (tenantApartments w).
  destruct (tenantApartments w !! auto_id (ids w)) as [old|] eqn:Hid.
  { cbn. eapply assign_id_taken; [done..| by rewrite Hid | done |].
    unfold the_writes; cbn. rewrite !List.filter_app; cbn. by rewrite !app_nil_r. }
  cbn [run mbind Js_bind mret Js_ret now updateDoc fst snd log set_coll db ticks ids trace console].
  fold (occupants_update apt (S (S (ticks w)))).
  rewrite parse_occupants_update.
  rewrite coll_of_insert_ne by done. fold (apartments w). rewrite Hapt.
  cbn [run mbind Js_bind mret Js_ret now updateDoc fst snd log set_coll db ticks ids trace console].
  fold (user_update apartmentId (S (S (S (ticks w))))).
  rewrite parse_user_update.
  rewrite !coll_of_insert_ne by done. fold (users w). rewrite Husr.
  cbn [run mbind Js_bind mret Js_ret fst snd log set_coll db ticks ids trace console].
  eapply assign_done; [done..| |].
  - done.
  - unfold the_writes; cbn. rewrite !List.filter_app; cbn.
    rewrite !app_nil_r. by rewrite <- !app_assoc.
Qed.
End Assign.

Section AssignClaims.
Context `{RT : Runtime}.

Lemma js_ge_num (apt : document) f n k :
  apt !! f = Some (VNum n) → js_ge (prop apt f) k = (k <=? n).
Proof. intros H. unfold prop. by rewrite H. Qed.

(** C1 (as amended).  For an apartment that exists, [assignTenant] fails
    with the capacity error exactly when [currentOccupants >= 3] holds in
    JavaScript; for a numeric count [n] that is exactly when [3 <= n], and
    for [n < 3] the capacity check passes.  The bound is the literal 3: the
    apartment's own [maxOccupants] does not occur in the condition. *)
Theorem assignTenant_capacity_is_three w userId apartmentId lease apt :
  apartments w !! apartmentId = Some apt →
  ((run (assignTenant userId apartmentId lease) w).1 = Throw CapacityExceeded
     ↔ js_ge (prop apt "currentOccupants") 3 = true)
  ∧ (∀ n, apt !! "currentOccupants" = Some (VNum n) →
       ((run (assignTenant userId apartmentId lease) w).1 = Throw CapacityExceeded
          ↔ 3 ≤ n)).
Proof.
  intros Hapt.
  assert (Hiff : (run (assignTenant userId apartmentId lease) w).1
                   = Throw CapacityExceeded
                 ↔ js_ge (prop apt "currentOccupants") 3 = true).
  { pose proof (assignTenant_run w userId apartmentId lease) as Hrun.
    destruct (run (assignTenant userId apartmentId lease) w) as [r w'] eqn:Erun.
    clear Erun. cbn [fst snd] in *.
    split.
    - intros ->. inversion Hrun; subst; try congruence.
      unfold parse_data in *. destruct ignoreUndefinedProperties; [done|].
      by case_bool_decide.
    - intros Hge. inversion Hrun; subst; try congruence. }
  split; [done|].
  intros n Hn. rewrite Hiff, (js_ge_num _ _ n) by done.
  by rewrite Z.leb_le.
Qed.

Lemma assignTenant_success w userId apartmentId lease apt usr d :
  apartments w !! apartmentId = Some apt →
  js_ge (prop apt "currentOccupants") 3 = false →
  users w !! userId = Some usr →
  ¬ has_active_tenancy w userId →
  parse_data (tenancy_record userId apartmentId lease apt (ticks w)) = Ok d →
  tenantApartments w !! auto_id (ids w) = None →
  let r := run (assignTenant userId apartmentId lease) w in
  r.1 = Ok (spread (obj [("id", VStr (auto_id (ids w)))])
              (tenancy_record userId apartmentId lease apt (ticks w)))
  ∧ db r.2 =
      <["users" :=
          <[userId := user_update apartmentId (3 + ticks w) ∪ usr]> (users w)]>
      (<["apartments" :=
          <[apartmentId := occupants_update apt (2 + ticks w) ∪ apt]>
            (apartments w)]>
      (<["tenantApartments" :=
          <[auto_id (ids w) := d]> (tenantApartments w)]> (db w)))
  ∧ the_writes r.2 =
      the_writes w ++
      [OpAdd "tenantApartments" (auto_id (ids w)) d;
       OpUpdate "apartments" apartmentId (occupants_update apt (2 + ticks w));
       OpUpdate "users" userId (user_update apartmentId (3 + ticks w))].
Proof.
  intros Hapt Hge Husr Hnone Hparse Hfresh r. subst r.
  pose proof (assignTenant_run w userId apartmentId lease) as Hrun.
  destruct (run (assignTenant userId apartmentId lease) w) as [r w'] eqn:Erun.
  clear Erun. cbn [fst snd] in *.
  inversion Hrun; subst; try congruence.
  - replace apt0 with apt in * by congruence.
    replace d0 with d in * by congruence.
    rewrite Hfresh in *. by destruct H4.
  - replace apt0 with apt in * by congruence.
    replace d0 with d in * by congruence.
    replace usr0 with usr in * by congruence. done.
Qed.

Lemma parse_tenancy_record userId apartmentId lease (apt : document) rent t :
  apt !! "monthlyRent" = Some rent → rent ≠ VUndef →
  parse_data (tenancy_record userId apartmentId lease apt t)
    = Ok (tenancy_record userId apartmentId lease apt t).
Proof.
  intros Hrent Hdef. apply parse_data_defined.
  unfold tenancy_record, obj, prop; simpl. rewrite Hrent; simpl.
  intros k v. rewrite !lookup_insert, lookup_empty.
  repeat case_decide; intros; simplify_eq; try done.
  by destruct v.
Qed.


Lemma tenancy_record_status userId apartmentId lease apt t :
  tenancy_record userId apartmentId lease apt t !! "status"
    = Some (VStr "active").
Proof. reflexivity. Qed.










(** C2.  The order of the lease dates is never examined: also for a
    lease that ends before it starts, when the checks of the code pass the
    call returns the record and issues the three writes. *)
Theorem assignTenant_accepts_reversed_dates
    w userId apartmentId lease apt usr n rent :
  endDate lease < startDate lease →
  apartments w !! apartmentId = Some apt →
  apt !! "currentOccupants" = Some (VNum n) →
  n < 3 →
  apt !! "monthlyRent" = Some rent →
  rent ≠ VUndef →
  users w !! userId = Some usr →
  ¬ has_active_tenancy w userId →
  tenantApartments w !! auto_id (ids w) = None →
  let r := run (assignTenant userId apartmentId lease) w in
  let record := tenancy_record userId apartmentId lease apt (ticks w) in
  r.1 = Ok (spread (obj [("id", VStr (auto_id (ids w)))]) record)
  ∧ record !! "leaseStartDate" = Some (VTime (startDate lease))
  ∧ record !! "leaseEndDate" = Some (VTime (endDate lease))
  ∧ the_writes r.2 =
      the_writes w ++
      [OpAdd "tenantApartments" (auto_id (ids w)) record;
       OpUpdate "apartments" apartmentId (occupants_update apt (2 + ticks w));
       OpUpdate "users" userId (user_update apartmentId (3 + ticks w))].
Proof.
  intros _ Hapt Hn Hlt Hrent Hdef Husr Hnone Hfresh r record.
  assert (Hge : js_ge (prop apt "currentOccupants") 3 = false).
  { rewrite (js_ge_num _ _ n) by done. by apply Z.leb_gt. }
  pose proof (parse_tenancy_record userId apartmentId lease apt rent (ticks w)
                Hrent Hdef) as Hparse.
  destruct (assignTenant_success w userId apartmentId lease apt usr record
              Hapt Hge Husr Hnone Hparse Hfresh) as (Hres & _ & Hwr).
  split; [exact Hres|]. split; [reflexivity|]. split; [reflexivity|].
  exact Hwr.
Qed.

End AssignClaims.

(** ** The claims on [assignTenant] at the sample data *)

(** C1, as stated, fails: unit 1A has [currentOccupants = maxOccupants = 2]
    and the assignment goes through; unit 3C has 3 occupants of at most 5
    and the assignment is refused for capacity. *)
Lemma assignTenant_capacity_counterexample :
  let lease := LeaseData jan_1 dec_31 in
  apartments sample_world !! "a1" = Some unit_1A
  ∧ unit_1A !! "currentOccupants" = unit_1A !! "maxOccupants"
  ∧ (run (assignTenant (RT := sample_runtime) "u1" "a1" lease) sample_world).1
    = Ok (spread (obj [("id", VStr "auto0")])
            (tenancy_record (RT := sample_runtime) "u1" "a1" lease unit_1A 0))
  ∧ apartments sample_world !! "a3" = Some unit_3C
  ∧ unit_3C !! "currentOccupants" = Some (VNum 3)
  ∧ unit_3C !! "maxOccupants" = Some (VNum 5)
  ∧ (run (assignTenant (RT := sample_runtime) "u1" "a3" lease) sample_world).1
    = Throw CapacityExceeded.
Proof. by_evaluation. Qed.

Lemma assignTenant_capacity_is_three_witness :
  apartments sample_world !! "a3" = Some unit_3C
  ∧ unit_3C !! "currentOccupants" = Some (VNum 3)
  ∧ ((run (assignTenant (RT := sample_runtime) "u1" "a3"
             (LeaseData jan_1 dec_31)) sample_world).1 = Throw CapacityExceeded
     ↔ 3 ≤ 3).
Proof.
  assert (H1 : apartments sample_world !! "a3" = Some unit_3C)
    by compute_done.
  assert (H2 : unit_3C !! "currentOccupants" = Some (VNum 3))
    by compute_done.
  split; [exact H1|]. split; [exact H2|].
  exact (proj2 (assignTenant_capacity_is_three (RT := sample_runtime)
                  sample_world "u1" "a3" (LeaseData jan_1 dec_31) unit_3C H1)
               3 H2).
Defined.

(** A lease from 1 June to 1 January of the same year, for the empty
    unit 2B and user u1, who has no tenancy. *)
Lemma assignTenant_accepts_reversed_dates_witness :
  let lease := LeaseData jun_1 jan_1 in
  let r := run (assignTenant (RT := sample_runtime) "u1" "a2" lease)
             sample_world in
  endDate lease < startDate lease
  ∧ r.1 = Ok (spread (obj [("id", VStr "auto0")])
                (tenancy_record (RT := sample_runtime) "u1" "a2" lease unit_2B 0))
  ∧ the_writes r.2 =
      [OpAdd "tenantApartments" "auto0"
         (tenancy_record (RT := sample_runtime) "u1" "a2" lease unit_2B 0);
       OpUpdate "apartments" "a2"
         (occupants_update (RT := sample_runtime) unit_2B 2);
       OpUpdate "users" "u1" (user_update (RT := sample_runtime) "a2" 3)].
Proof.
  intros lease r.
  assert (Hdates : endDate lease < startDate lease) by reflexivity.
  assert (Hnone : ¬ has_active_tenancy sample_world "u1").
  { assert (Hempty : tenantApartments sample_world = ∅) by compute_done.
    intros (i & d & Hi & _). rewrite Hempty, lookup_empty in Hi.
    discriminate. }
  destruct (assignTenant_accepts_reversed_dates (RT := sample_runtime)
              sample_world "u1" "a2" lease unit_2B
              (obj [("name", VStr "Xavier")]) 0 (VNum 1200) Hdates)
    as (Hres & _ & _ & Hwr);
    [compute_done | compute_done | reflexivity | compute_done | discriminate
    | compute_done | exact Hnone | compute_done |].
  split; [exact Hdates|]. split; [exact Hres | exact Hwr].
Defined.




(** ** Queries and removal *)

Section QueryClaims.
Context `{RT : Runtime}.

Lemma run_bind {A B} (m : Js A) (f : A → Js B) w :
  run (m ≫= f) w =
    match run m w with
    | (Ok a, w') => run (f a) w'
    | (Throw e, w') => (Throw e, w')
    end.
Proof. reflexivity. Qed.

Lemma promise_all_rejects {A B} (f : A → Js B) e xs w :
  (∀ x w0, run (f x) w0 = (Throw e, w0)) →
  xs ≠ [] → run (promise_all f xs) w = (Throw e, w).
Proof.
  intros Hf. induction xs as [|x rest IH]; [done|]. intros _.
  cbn [promise_all run]. rewrite Hf.
  destruct rest as [|y rest']; [done|].
  by rewrite IH.
Qed.

(** C5.  [getApartmentTenants] does not return the enriched records: as
    soon as the apartment has an active tenancy record, the callback calls
    the snapshot [doc] as a function and the call is rejected with a
    TypeError, the query being the only operation sent (no user is looked
    up).  With no active tenancy record it returns the empty list.
    Nothing is written. *)
Theorem getApartmentTenants_rejects_with_tenants w apartmentId :
  let r := run (getApartmentTenants apartmentId) w in
  unchanged w r.2
  ∧ (¬ has_active_tenant w apartmentId →
       r.1 = Ok []
       ∧ trace r.2 = trace w ++
           [OpGetDocs "tenantApartments"
              [WhereEq "apartmentId" apartmentId; WhereEq "status" "active"]])
  ∧ (has_active_tenant w apartmentId →
       r.1 = Throw (TypeError "doc is not a function")
       ∧ trace r.2 = trace w ++
           [OpGetDocs "tenantApartments"
              [WhereEq "apartmentId" apartmentId; WhereEq "status" "active"]]).
Proof.
  intros r. subst r. unfold getApartmentTenants, try_log.
  cbn [run mbind Js_bind getDocs fst snd].
  fold (tenantApartments w).
  pose proof (where_eq_query_nonempty (tenantApartments w)
                "apartmentId" apartmentId "status" "active") as Hq.
  fold (has_active_tenant w apartmentId) in Hq.
  match goal with
  | |- context [List.filter ?f ?l] => destruct (List.filter f l) as [|s rest]
  end.
  - cbn. split; [|split].
    + split; [done|]. unfold the_writes; cbn.
      rewrite List.filter_app; cbn. apply app_nil_r.
    + done.
    + intros H. by apply Hq in H.
  - rewrite run_bind.
    rewrite (promise_all_rejects _ (TypeError "doc is not a function"))
      by done.
    cbn. split; [|split].
    + split; [done|]. unfold the_writes; cbn.
      rewrite List.filter_app; cbn. apply app_nil_r.
    + intros H. destruct H. by apply Hq.
    + done.
Qed.




Lemma getAvailableApartments_run w :
  run getAvailableApartments w =
    (Ok (map (λ s : snapshot, with_id s.1 s.2)
           (List.filter (λ s : snapshot,
              matches s.2 (WhereLt "currentOccupants" 3) && true)
              (map_to_list (apartments w)))),
     log (OpGetDocs "apartments" [WhereLt "currentOccupants" 3]) w).
Proof. reflexivity. Qed.


Lemma active_tenants_filter (tas : collection) apartmentId :
  List.filter (λ d : snapshot,
      strict_eq (prop d.2 "apartmentId") (VStr apartmentId)
      && strict_eq (prop d.2 "status") (VStr "active"))
    (map_to_list tas) ≠ []
  ↔ ∃ id d, tas !! id = Some d
            ∧ d !! "apartmentId" = Some (VStr apartmentId)
            ∧ d !! "status" = Some (VStr "active").
Proof.
  split.
  - intros Hne.
    destruct (List.filter _ _) as [|[id d] rest] eqn:E; [done|].
    assert (Hin : In (id, d) (List.filter (λ d : snapshot,
      strict_eq (prop d.2 "apartmentId") (VStr apartmentId)
      && strict_eq (prop d.2 "status") (VStr "active"))
      (map_to_list tas))) by (rewrite E; by left).
    apply filter_In in Hin as [Hin Hm].
    apply list_elem_of_In, elem_of_map_to_list in Hin.
    apply andb_prop in Hm as [H1 H2]. cbn [snd] in *.
    apply strict_eq_str in H1, H2. by exists id, d.
  - intros (id & d & Hd & Ha & Hs) Hnil.
    assert (Hin : In (id, d) (List.filter (λ d : snapshot,
      strict_eq (prop d.2 "apartmentId") (VStr apartmentId)
      && strict_eq (prop d.2 "status") (VStr "active"))
      (map_to_list tas))).
    { apply filter_In. split.
      - by apply list_elem_of_In, elem_of_map_to_list.
      - cbn [snd]. apply andb_true_intro. split; by apply strict_eq_str. }
    by rewrite Hnil in Hin.
Qed.

(** C8.  [deleteApartment] succeeds only for an apartment without an
    active tenancy record, and then it deletes the document.  When some
    active tenancy record references the apartment the call fails and
    nothing is written, so the apartment document stays; for an apartment
    that exists the error is the one about active tenants.  An apartment
    that exists and has no active tenancy record is deleted. *)
Theorem deleteApartment_only_without_active_tenants w apartmentId :
  let r := run (deleteApartment apartmentId) w in
  (∀ res, r.1 = Ok res →
     ¬ has_active_tenant w apartmentId
     ∧ is_Some (apartments w !! apartmentId)
     ∧ apartments r.2 !! apartmentId = None
     ∧ the_writes r.2 = the_writes w ++ [OpDelete "apartments" apartmentId])
  ∧ (has_active_tenant w apartmentId →
     (∃ e, r.1 = Throw e)
     ∧ unchanged w r.2
     ∧ apartments r.2 !! apartmentId = apartments w !! apartmentId
     ∧ (is_Some (apartments w !! apartmentId) →
        r.1 = Throw (Error "Cannot delete apartment with active tenants")))
  ∧ (is_Some (apartments w !! apartmentId) →
     ¬ has_active_tenant w apartmentId →
     r.1 = Ok (obj [("success", VBool true);
                    ("message", VStr "Apartment deleted successfully")])).
Proof.
  intros r. subst r. unfold deleteApartment, try_log, doc.
  cbn [run mbind Js_bind call mret Js_ret getDoc fst snd].
  fold (apartments w).
  destruct (apartments w !! apartmentId) as [apt|] eqn:Hapt.
  2:{ cbn. split; [done|]. split; [|by intros [? ?]].
      intros _. split; [eauto|]. split; [|split; [|by intros [? ?]]].
      - split; [done|]. unfold the_writes; cbn.
        rewrite List.filter_app; cbn. apply app_nil_r.
      - unfold apartments; cbn. fold (apartments w). by rewrite Hapt. }
  cbn [run mbind Js_bind mret Js_ret getDocs forallb fst snd log db].
  rewrite filter_all. fold (tenantApartments w).
  pose proof (active_tenants_filter (tenantApartments w) apartmentId) as Hq.
  fold (has_active_tenant w apartmentId) in Hq.
  match goal with
  | |- context [List.filter ?f ?l] => destruct (List.filter f l) as [|s rest]
  end.
  - assert (Hnone : ¬ has_active_tenant w apartmentId).
    { intros H. by apply Hq in H. }
    cbn. split; [|split; [done|done]].
    intros res _. split; [done|]. split; [eauto|]. split.
    + unfold apartments; cbn. rewrite coll_of_insert_eq.
      apply lookup_delete_eq.
    + unfold the_writes; cbn. rewrite !List.filter_app; cbn.
      by rewrite !app_nil_r.
  - assert (Hsome : has_active_tenant w apartmentId) by by apply Hq.
    cbn. split; [done|]. split; [|done].
    intros _. split; [eauto|]. split; [|split; [|done]].
    + split; [done|]. unfold the_writes; cbn.
      rewrite !List.filter_app; cbn. by rewrite !app_nil_r.
    + unfold apartments; cbn. done.
Qed.

End QueryClaims.

(** After u1 is assigned to unit 2B, the tenants of that unit are asked
    for. *)
Lemma getApartmentTenants_rejects_with_tenants_witness :
  let lease := LeaseData jan_1 dec_31 in
  let assigned := run (assignTenant (RT := sample_runtime) "u1" "a2" lease)
                    sample_world in
  let r := run (getApartmentTenants "a2") assigned.2 in
  assigned.1 = Ok (spread (obj [("id", VStr "auto0")])
                     (tenancy_record (RT := sample_runtime) "u1" "a2" lease unit_2B 0))
  ∧ has_active_tenant assigned.2 "a2"
  ∧ r.1 = Throw (TypeError "doc is not a function")
  ∧ trace r.2 = trace assigned.2 ++
      [OpGetDocs "tenantApartments"
         [WhereEq "apartmentId" "a2"; WhereEq "status" "active"]].
Proof.
  intros lease assigned r.
  assert (Hok : assigned.1 = Ok (spread (obj [("id", VStr "auto0")])
            (tenancy_record (RT := sample_runtime) "u1" "a2" lease unit_2B 0)))
    by compute_done.
  assert (Hact : has_active_tenant assigned.2 "a2").
  { exists "auto0",
      (tenancy_record (RT := sample_runtime) "u1" "a2" lease unit_2B 0).
    by_evaluation. }
  destruct (getApartmentTenants_rejects_with_tenants assigned.2 "a2")
    as (_ & _ & Hthrow).
  destruct (Hthrow Hact) as [Hres Htrace].
  split; [exact Hok|]. split; [exact Hact|].
  split; [exact Hres | exact Htrace].
Defined.

Lemma deleteApartment_only_without_active_tenants_witness :
  let lease := LeaseData jan_1 dec_31 in
  let assigned := run (assignTenant (RT := sample_runtime) "u1" "a2" lease)
                    sample_world in
  let r := run (deleteApartment "a2") assigned.2 in
  has_active_tenant assigned.2 "a2"
  ∧ r.1 = Throw (Error "Cannot delete apartment with active tenants")
  ∧ is_Some (apartments r.2 !! "a2")
  ∧ (run (deleteApartment "a1") sample_world).1
    = Ok (obj [("success", VBool true);
               ("message", VStr "Apartment deleted successfully")])
  ∧ apartments (run (deleteApartment "a1") sample_world).2 !! "a1" = None.
Proof.
  intros lease assigned r.
  assert (Hact : has_active_tenant assigned.2 "a2").
  { exists "auto0",
      (tenancy_record (RT := sample_runtime) "u1" "a2" lease unit_2B 0).
    by_evaluation. }
  assert (Hsome : is_Some (apartments assigned.2 !! "a2"))
    by (apply (bool_decide_unpack _); compute_done).
  destruct (deleteApartment_only_without_active_tenants assigned.2 "a2")
    as (_ & Hfail & _).
  destruct (Hfail Hact) as (_ & _ & Hkeep & Herr).
  split; [exact Hact|]. split; [exact (Herr Hsome)|].
  split; [fold r in Hkeep; rewrite Hkeep; exact Hsome|].
  destruct (deleteApartment_only_without_active_tenants sample_world "a1")
    as (Hok & _ & Hdel).
  assert (Hres : (run (deleteApartment "a1") sample_world).1
    = Ok (obj [("success", VBool true);
               ("message", VStr "Apartment deleted successfully")])).
  { apply Hdel.
    - apply (bool_decide_unpack _); compute_done.
    - assert (Hempty : tenantApartments sample_world = ∅) by compute_done.
      intros (i & d & Hi & _). rewrite Hempty, lookup_empty in Hi.
      discriminate. }
  split; [exact Hres|]. exact (proj1 (proj2 (proj2 (Hok _ Hres)))).
Defined.

(** ** Creating and updating apartments *)

Section ApartmentClaims.
Context `{RT : Runtime}.

(** C9.  Whenever [createApartment] returns, it has added one apartment
    document, under a new id, whose [status] is ['available'] and whose
    [currentOccupants] is 0, whatever the input gave for these two fields;
    the returned record carries the same two values. *)
Theorem createApartment_initial_state w apartmentData rec :
  (run (createApartment apartmentData) w).1 = Ok rec →
  let w' := (run (createApartment apartmentData) w).2 in
  let id := auto_id (ids w) in
  ∃ stored,
    apartments w !! id = None
    ∧ apartments w' !! id = Some stored
    ∧ the_writes w' = the_writes w ++ [OpAdd "apartments" id stored]
    ∧ stored !! "status" = Some (VStr "available")
    ∧ stored !! "currentOccupants" = Some (VNum 0)
    ∧ rec !! "status" = Some (VStr "available")
    ∧ rec !! "currentOccupants" = Some (VNum 0).
Proof.
  intros Hok w' id. subst w' id. revert Hok.
  unfold createApartment, try_log.
  repeat match goal with
  | |- context [if ?c then mthrow ?e else _] =>
      destruct c eqn:?; [by cbn|]
  end.
  cbn [run mbind Js_bind mret Js_ret getDocs forallb fst snd log db].
  rewrite filter_all. fold (apartments w).
  match goal with
  | |- context [List.find ?f ?l] => destruct (List.find f l); [by cbn|]
  end.
  cbn [run mbind Js_bind mret Js_ret now addDoc fst snd log db ticks ids trace console].
  set (newApartment := spread apartmentData _).
  assert (Hstatus : newApartment !! "status" = Some (VStr "available"))
    by by apply lookup_union_Some_l.
  assert (Hcount : newApartment !! "currentOccupants" = Some (VNum 0))
    by by apply lookup_union_Some_l.
  destruct (parse_data newApartment) as [d|e] eqn:Hparse; [|by cbn].
  unfold apartments.
  destruct (coll_of (db w) "apartments" !! auto_id (ids w)) eqn:Hid; [by cbn|].
  cbn. intros [= <-]. exists d.
  split; [done|]. split; [by rewrite coll_of_insert_eq, lookup_insert_eq|].
  split.
  { unfold the_writes; cbn. rewrite !List.filter_app; cbn.
    by rewrite !app_nil_r. }
  split; [by eapply parse_data_keeps|].
  split; [by eapply parse_data_keeps|].
  split; by apply lookup_union_Some_l.
Qed.

Lemma prop_delete_eq (o : document) f : prop (delete f o) f = VUndef.
Proof. unfold prop. by rewrite lookup_delete_eq. Qed.

Lemma prop_delete_ne (o : document) f g :
  f ≠ g → prop (delete f o) g = prop o g.
Proof. intros H. unfold prop. by rewrite lookup_delete_ne. Qed.

Lemma prop_lookup (o : document) f v : o !! f = Some v → prop o f = v.
Proof. intros H. unfold prop. by rewrite H. Qed.

(** If an update is accepted by the client without its field [f], it is
    accepted with [f] set to 0, and the 0 is part of what is sent. *)
Lemma parse_data_with_zero (updateData : document) f t d0 :
  f ≠ "updatedAt" →
  updateData !! f = Some (VNum 0) →
  parse_data (spread (delete f updateData) (obj [("updatedAt", VTime t)]))
    = Ok d0 →
  ∃ d, parse_data (spread updateData (obj [("updatedAt", VTime t)])) = Ok d
       ∧ d !! f = Some (VNum 0).
Proof.
  intros Hf Hzero. unfold parse_data, spread.
  assert (Hlook : (obj [("updatedAt", VTime t)] ∪ updateData) !! f
                  = Some (VNum 0)).
  { apply lookup_union_Some_raw. right. split; [|done].
    unfold obj; simpl. by rewrite lookup_insert_ne. }
  destruct ignoreUndefinedProperties.
  - intros _. eexists. split; [done|]. by apply map_lookup_filter_Some.
  - case_bool_decide as Hall; [|done]. intros _.
    exists (obj [("updatedAt", VTime t)] ∪ updateData).
    split; [|done].
    rewrite bool_decide_eq_true_2; [done|].
    intros k v Hk. destruct (decide (k = f)) as [->|Hne].
    + rewrite Hlook in Hk. by simplify_eq.
    + apply (Hall k v).
      rewrite lookup_union in Hk |- *. by rewrite lookup_delete_ne.
Qed.

(** C10.  A value of 0 for [floor], [rooms], [monthlyRent] or
    [maxOccupants] is falsy, so its check is skipped: whenever the update
    without that field goes through, the update with the field set to 0
    goes through as well, and the 0 is sent to the store, stored in the
    apartment document and returned. *)
Theorem updateApartment_zero_not_validated w apartmentId updateData f res0 :
  f ∈ ["floor"; "rooms"; "monthlyRent"; "maxOccupants"] →
  updateData !! f = Some (VNum 0) →
  (run (updateApartment apartmentId (delete f updateData)) w).1 = Ok res0 →
  let r := run (updateApartment apartmentId updateData) w in
  ∃ res sent stored,
    r.1 = Ok res
    ∧ res !! f = Some (VNum 0)
    ∧ the_writes r.2 = the_writes w ++ [OpUpdate "apartments" apartmentId sent]
    ∧ sent !! f = Some (VNum 0)
    ∧ apartments r.2 !! apartmentId = Some stored
    ∧ stored !! f = Some (VNum 0).
Proof.
  intros Hf Hzero Hok r. subst r. revert Hok.
  assert (Hcases : f = "floor" ∨ f = "rooms" ∨ f = "monthlyRent"
                   ∨ f = "maxOccupants").
  { rewrite !elem_of_cons, elem_of_nil in Hf. tauto. }
  assert (Hne : f ≠ "unitNumber" ∧ f ≠ "updatedAt" ∧ f ≠ "id")
    by (destruct Hcases as [-> | [-> | [-> | ->]]]; done).
  destruct Hne as (Hunit & Hupd & Hid).
  assert (Hprop : prop updateData f = VNum 0) by by apply prop_lookup.
  assert (Hsame : ∀ g,
    truthy (prop (delete f updateData) g)
    && (negb (typeof_number (prop (delete f updateData) g))
        || js_le (prop (delete f updateData) g) 0)
    = truthy (prop updateData g)
      && (negb (typeof_number (prop updateData g))
          || js_le (prop updateData g) 0)).
  { intros g. destruct (decide (f = g)) as [<-|Hg].
    - by rewrite prop_delete_eq, Hprop.
    - by rewrite prop_delete_ne. }
  unfold updateApartment, try_log, doc.
  cbn [run mbind Js_bind call mret Js_ret getDoc fst snd].
  fold (apartments w).
  destruct (apartments w !! apartmentId) as [apt|] eqn:Hapt; [|by cbn].
  rewrite !Hsame, (prop_delete_ne _ f "unitNumber") by done.
  repeat match goal with
  | |- context [if ?c then mthrow ?e else _] =>
      destruct c eqn:?; [by cbn|]
  end.
  rewrite !run_bind.
  match goal with
  | |- context [run ?c (log ?o w)] =>
      destruct (run c (log o w)) as [[[]|e] w1] eqn:Hcheck; [|by cbn]
  end.
  assert (Hw1 : db w1 = db w ∧ the_writes w1 = the_writes w).
  { revert Hcheck. destruct (truthy (prop updateData "unitNumber")).
    - cbn [run mbind Js_bind getDocs forallb fst snd].
      match goal with
      | |- context [List.find ?p ?l] => destruct (List.find p l); [by cbn|]
      end.
      cbn. intros [= <-]. split; [done|].
      rewrite !the_writes_read; done.
    - cbn. intros [= <-]. split; [done|]. by rewrite the_writes_read. }
  destruct Hw1 as [Hdb Hwr].
  cbn [run mbind Js_bind mret Js_ret now updateDoc fst snd].
  destruct (parse_data (spread (delete f updateData) _)) as [d0|e] eqn:Hp0;
    [|by cbn].
  destruct (parse_data_with_zero _ _ _ _ Hupd Hzero Hp0) as (d & Hp & Hd).
  rewrite Hp. cbn [db]. rewrite Hdb. fold (apartments w). rewrite Hapt.
  cbn. intros _.
  eexists _, d, (d ∪ apt). split; [done|].
  split.
  { apply lookup_union_Some_l. apply lookup_union_Some_raw. right.
    split; [|done]. unfold obj; simpl. by rewrite lookup_insert_ne. }
  split.
  { unfold the_writes in *; cbn. rewrite List.filter_app; cbn. by rewrite Hwr. }
  split; [done|].
  split; [|by apply lookup_union_Some_l].
  unfold apartments; cbn. by rewrite coll_of_insert_eq, lookup_insert_eq.
Qed.

End ApartmentClaims.

(** ** The remaining claims at the sample data *)


(** An input that asks for 7 occupants and status occupied. *)
Lemma createApartment_initial_state_witness :
  let apartmentData :=
    obj [("unitNumber", VStr "9Z"); ("rooms", VNum 2);
         ("monthlyRent", VNum 1000); ("maxOccupants", VNum 2);
         ("status", VStr "occupied"); ("currentOccupants", VNum 7)] in
  let r := run (createApartment (RT := sample_runtime) apartmentData)
             sample_world in
  ∃ stored,
    apartments r.2 !! "auto0" = Some stored
    ∧ stored !! "status" = Some (VStr "available")
    ∧ stored !! "currentOccupants" = Some (VNum 0).
Proof.
  intros apartmentData r.
  assert (Hok : r.1 = Ok
    (obj [("id", VStr "auto0"); ("unitNumber", VStr "9Z"); ("rooms", VNum 2);
          ("monthlyRent", VNum 1000); ("maxOccupants", VNum 2);
          ("status", VStr "available"); ("currentOccupants", VNum 0);
          ("createdAt", VTime 1700000000000);
          ("updatedAt", VTime 1700000000001)])) by compute_done.
  destruct (createApartment_initial_state (RT := sample_runtime)
              sample_world apartmentData _ Hok)
    as (stored & _ & Hstored & _ & Hstatus & Hcount & _).
  exists stored. split; [exact Hstored|]. split; [exact Hstatus|exact Hcount].
Defined.

Lemma updateApartment_zero_not_validated_witness :
  let updateData := obj [("rooms", VNum 0); ("monthlyRent", VNum 950)] in
  let r := run (updateApartment (RT := sample_runtime) "a2" updateData)
             sample_world in
  ∃ res sent stored,
    r.1 = Ok res
    ∧ res !! "rooms" = Some (VNum 0)
    ∧ the_writes r.2 = the_writes sample_world ++ [OpUpdate "apartments" "a2" sent]
    ∧ sent !! "rooms" = Some (VNum 0)
    ∧ apartments r.2 !! "a2" = Some stored
    ∧ stored !! "rooms" = Some (VNum 0).
Proof.
  intros updateData r.
  apply (updateApartment_zero_not_validated (RT := sample_runtime)
           sample_world "a2" updateData "rooms"
           (obj [("id", VStr "a2"); ("monthlyRent", VNum 950);
                 ("updatedAt", VTime 1700000000000)])).
  - apply (bool_decide_unpack _). compute_done.
  - compute_done.
  - compute_done.
Defined.

(** By contrast, a negative number of rooms is refused and nothing is
    written. *)
Example updateApartment_refuses_negative :
  let r := run (updateApartment (RT := sample_runtime) "a2"
                  (obj [("rooms", VNum (-1))])) sample_world in
  r.1 = Throw (Error "Invalid number of rooms")
  ∧ the_writes r.2 = [].
Proof. by_evaluation. Qed.

(** * Further properties *)

(** The writes of a world given by its log. *)
Ltac solve_writes :=
  unfold the_writes; cbn; rewrite ?List.filter_app; cbn;
  rewrite ?app_nil_r; try done; by rewrite <- ?app_assoc.

Section Runs.
Context `{RT : Runtime}.

Lemma find_map_to_list (docs : collection) (p : snapshot → bool) :
  (∃ s, List.find p (map_to_list docs) = Some s)
  ↔ ∃ id d, docs !! id = Some d ∧ p (id, d) = true.
Proof.
  split.
  - intros [[id d] Hfind]. apply find_some in Hfind as [Hin Hp].
    apply list_elem_of_In, elem_of_map_to_list in Hin. by exists id, d.
  - intros (id & d & Hd & Hp).
    destruct (List.find p (map_to_list docs)) as [s|] eqn:Hfind; [by exists s|].
    exfalso. pose proof (find_none _ _ Hfind (id, d)) as Hnone.
    rewrite Hnone in Hp; [done|].
    by apply list_elem_of_In, elem_of_map_to_list.
Qed.

Lemma createApartment_run w apartmentData :
  create_run w apartmentData
    (run (createApartment apartmentData) w).1
    (run (createApartment apartmentData) w).2.
Proof.
  unfold createApartment, try_log.
  fold (missing_required apartmentData). fold (invalid_numbers apartmentData).
  destruct (missing_required apartmentData) eqn:Hmiss.
  { cbn. by apply create_missing. }
  destruct (invalid_numbers apartmentData) eqn:Hinv.
  { cbn. by apply create_invalid. }
  cbn [run mbind Js_bind mret Js_ret getDocs forallb fst snd log db].
  rewrite filter_all. fold (apartments w).
  pose proof (find_map_to_list (apartments w)
    (λ d : snapshot, strict_eq (prop d.2 "unitNumber")
                       (prop apartmentData "unitNumber"))) as Hfind.
  match goal with
  | |- context [List.find ?p ?l] => destruct (List.find p l) as [s|]
  end.
  { cbn. apply create_duplicate; [done..| |].
    - destruct Hfind as [(id & d & Hd & Hp) _]; [by eexists|]. by exists id, d.
    - split; [done|]. unfold the_writes; cbn.
      rewrite List.filter_app; cbn. apply app_nil_r. }
  assert (Hfree : ¬ unit_taken w (prop apartmentData "unitNumber")).
  { intros (id & d & Hd & Hp).
    destruct Hfind as [_ [s Hs]]; [by exists id, d|]. done. }
  clear Hfind.
  cbn [run mbind Js_bind mret Js_ret now addDoc fst snd log db ticks ids trace console].
  fold (new_apartment apartmentData (ticks w)).
  destruct (parse_data (new_apartment apartmentData (ticks w)))
    as [d|e] eqn:Hparse.
  2:{ cbn. eapply create_rejected_data; [done..|]. split; [done|].
      unfold the_writes; cbn. rewrite List.filter_app; cbn. apply app_nil_r. }
  fold (apartments w).
  destruct (apartments w !! auto_id (ids w)) as [old|] eqn:Hid.
  { cbn [run mbind Js_bind mret Js_ret fst snd log db].
    eapply create_id_taken; [done..| by rewrite Hid | done]. }
  cbn [run mbind Js_bind mret Js_ret fst snd log set_coll db].
  eapply create_done; [done..|].
  unfold the_writes; cbn. rewrite !List.filter_app; cbn.
  by rewrite !app_nil_r.
Qed.

Lemma updateApartment_run w apartmentId updateData :
  update_run w apartmentId updateData
    (run (updateApartment apartmentId updateData) w).1
    (run (updateApartment apartmentId updateData) w).2.
Proof.
  unfold updateApartment, try_log, doc.
  cbn [run mbind Js_bind call mret Js_ret getDoc fst snd].
  fold (apartments w).
  destruct (apartments w !! apartmentId) as [apt|] eqn:Hapt.
  2:{ cbn. apply update_not_found; [done|]. split; [done|].
      unfold the_writes; cbn. rewrite List.filter_app; cbn. apply app_nil_r. }
  fold (refused_number (prop updateData "floor")).
  fold (refused_number (prop updateData "rooms")).
  fold (refused_number (prop updateData "monthlyRent")).
  fold (refused_number (prop updateData "maxOccupants")).
  assert (Hread : unchanged w (log (OpGet "apartments" apartmentId) w)).
  { split; [done|]. by apply the_writes_read. }
  destruct (refused_number (prop updateData "floor")) eqn:H1.
  { cbn. eapply (update_invalid _ _ _ apt "floor"); [done| |done..].
    repeat constructor. }
  destruct (refused_number (prop updateData "rooms")) eqn:H2.
  { cbn. eapply (update_invalid _ _ _ apt "rooms"); [done| |done..].
    repeat constructor. }
  destruct (refused_number (prop updateData "monthlyRent")) eqn:H3.
  { cbn. eapply (update_invalid _ _ _ apt "monthlyRent"); [done| |done..].
    repeat constructor. }
  destruct (refused_number (prop updateData "maxOccupants")) eqn:H4.
  { cbn. eapply (update_invalid _ _ _ apt "maxOccupants"); [done| |done..].
    repeat constructor. }
  assert (Hnum : ∀ field,
    field ∈ ["floor"; "rooms"; "monthlyRent"; "maxOccupants"] →
    refused_number (prop updateData field) = false).
  { intros field Hin. rewrite !elem_of_cons, elem_of_nil in Hin.
    destruct Hin as [-> | [-> | [-> | [-> | []]]]]; done. }
  clear H1 H2 H3 H4.
  rewrite !run_bind.
  destruct (truthy (prop updateData "unitNumber")) eqn:Hunit.
  - cbn [run mbind Js_bind mret Js_ret getDocs forallb fst snd log db].
    rewrite filter_all. fold (apartments w).
    pose proof (find_map_to_list (apartments w)
      (λ d : snapshot, negb (bool_decide (d.1 = apartmentId))
         && strict_eq (prop d.2 "unitNumber") (prop updateData "unitNumber")))
      as Hfind.
    match goal with
    | |- context [List.find ?p ?l] => destruct (List.find p l) as [s|]
    end.
    { cbn [run mbind Js_bind mret Js_ret mthrow Js_throw fst snd].
      eapply update_duplicate; [done..| |].
      - destruct Hfind as [(id & d & Hd & Hp) _]; [by eexists|].
        cbn [fst snd] in Hp. apply andb_prop in Hp as [Hne Hp].
        exists id, d. split; [done|]. split; [|done].
        apply negb_true_iff in Hne. by apply bool_decide_eq_false in Hne.
      - split; [done|]. solve_writes. }
    assert (Hfree : truthy (prop updateData "unitNumber") = true →
              ¬ unit_taken_by_other w apartmentId (prop updateData "unitNumber")).
    { intros _ (id & d & Hd & Hne & Hp).
      destruct Hfind as [_ [s Hs]]; [|done].
      exists id, d. split; [done|]. cbn [fst snd].
      apply andb_true_intro. split; [|done].
      apply negb_true_iff. by apply bool_decide_eq_false. }
    clear Hfind.
    cbn [run mbind Js_bind mret Js_ret now updateDoc fst snd log db ticks ids trace console].
    destruct (parse_data (spread updateData _)) as [d|e] eqn:Hparse.
    2:{ cbn [run mbind Js_bind mret Js_ret fst snd log db].
        eapply update_rejected_data; [done..|]. split; [done|].
        cbn. unfold the_writes; cbn. rewrite !List.filter_app; cbn.
        by rewrite !app_nil_r. }
    fold (apartments w). rewrite Hapt.
    cbn [run mbind Js_bind mret Js_ret fst snd log set_coll db].
    eapply update_done; [done..|].
    unfold the_writes; cbn. rewrite !List.filter_app; cbn.
    by rewrite !app_nil_r.
  - assert (Hfree : truthy (prop updateData "unitNumber") = true →
              ¬ unit_taken_by_other w apartmentId (prop updateData "unitNumber"))
      by (by rewrite Hunit).
    cbn [run mbind Js_bind mret Js_ret now updateDoc fst snd log db ticks ids trace console].
    destruct (parse_data (spread updateData _)) as [d|e] eqn:Hparse.
    2:{ cbn [run mbind Js_bind mret Js_ret fst snd log db].
        eapply update_rejected_data; [done..|]. split; [done|].
        cbn. unfold the_writes; cbn. rewrite !List.filter_app; cbn.
        by rewrite !app_nil_r. }
    fold (apartments w). rewrite Hapt.
    cbn [run mbind Js_bind mret Js_ret fst snd log set_coll db].
    eapply update_done; [done..|].
    unfold the_writes; cbn. rewrite !List.filter_app; cbn.
    by rewrite !app_nil_r.
Qed.

End Runs.

(** ** Generic document functions *)

Section Generic.
Context `{RT : Runtime}.

Lemma parse_data_within (data d : document) k :
  parse_data data = Ok d → data !! k = None → d !! k = None.
Proof.
  unfold parse_data. intros Hp Hk.
  destruct ignoreUndefinedProperties.
  - inversion Hp; subst. by apply map_lookup_filter_None_2; left.
  - case_bool_decide; by simplify_eq.
Qed.

Lemma parse_data_undef (data d : document) k v :
  parse_data data = Ok d → data !! k = Some v → is_undef v = true →
  d !! k = None.
Proof.
  unfold parse_data. intros Hp Hk Hv.
  destruct ignoreUndefinedProperties.
  - inversion Hp; subst. apply map_lookup_filter_None_2. right.
    intros v' Hv' Hp'. cbn in Hp'. simplify_eq. congruence.
  - case_bool_decide as Hall; [|done].
    specialize (Hall k v Hk). cbn in Hall. congruence.
Qed.

Lemma is_undef_false v : v ≠ VUndef → is_undef v = false.
Proof. by destruct v. Qed.

Lemma coll_of_insert (d : database) c c' docs :
  coll_of (<[c := docs]> d) c' = if decide (c = c') then docs else coll_of d c'.
Proof.
  case_decide; [subst; apply coll_of_insert_eq | by apply coll_of_insert_ne].
Qed.

(** What a successful [addDocument] has done. *)
Lemma addDocument_ok w collectionName data id :
  (run (addDocument collectionName data) w).1 = Ok id →
  ∃ d,
    parse_data (spread data (obj [("createdAt", VTime (clock (ticks w)))])) = Ok d
    ∧ id = auto_id (ids w)
    ∧ coll_of (db w) collectionName !! id = None
    ∧ db (run (addDocument collectionName data) w).2
      = <[collectionName := <[id := d]> (coll_of (db w) collectionName)]> (db w)
    ∧ the_writes (run (addDocument collectionName data) w).2
      = the_writes w ++ [OpAdd collectionName id d].
Proof.
  unfold addDocument, try_log.
  cbn [run mbind Js_bind mret Js_ret now addDoc fst snd log db ticks ids trace console].
  destruct (parse_data (spread data _)) as [d|e] eqn:Hparse; [|by cbn].
  destruct (coll_of (db w) collectionName !! auto_id (ids w)) eqn:Hid; [by cbn|].
  cbn [run mbind Js_bind mret Js_ret fst snd log set_coll db].
  intros [= <-]. exists d. repeat (split; [done|]). solve_writes.
Qed.

(** [fetchDocumentByID] on a reference reads the document. *)
Lemma fetchDocumentByID_result w c id :
  (run (fetchDocumentByID (Some (c, id))) w).1 =
    match coll_of (db w) c !! id with
    | Some d => Ok d
    | None => Throw (Error "Document not found")
    end.
Proof.
  unfold fetchDocumentByID, try_log.
  cbn [run mbind Js_bind mret Js_ret getDoc fst snd].
  by destruct (coll_of (db w) c !! id).
Qed.

(** X1.  A document added by [addDocument] is found by [fetchDocumentByID]
    under the returned id, which was free before.  It holds every defined
    field of the data and a [createdAt] timestamp that is the time of the
    call, also when the data had a [createdAt] of its own.  The other
    documents of the collection read as before. *)
Theorem addDocument_then_fetch w collectionName data id :
  (run (addDocument collectionName data) w).1 = Ok id →
  let w' := (run (addDocument collectionName data) w).2 in
  ∃ stored,
    (run (fetchDocumentByID (Some (collectionName, id))) w').1 = Ok stored
    ∧ (run (fetchDocumentByID (Some (collectionName, id))) w).1
      = Throw (Error "Document not found")
    ∧ stored !! "createdAt" = Some (VTime (clock (ticks w)))
    ∧ (∀ f v, f ≠ "createdAt" → v ≠ VUndef →
         data !! f = Some v → stored !! f = Some v)
    ∧ (∀ f, f ≠ "createdAt" → data !! f = None → stored !! f = None)
    ∧ (∀ id', id' ≠ id →
         (run (fetchDocumentByID (Some (collectionName, id'))) w').1
         = (run (fetchDocumentByID (Some (collectionName, id'))) w).1).
Proof.
  intros Hok w'. subst w'.
  destruct (addDocument_ok _ _ _ _ Hok) as (d & Hparse & -> & Hfree & Hdb & _).
  exists d. rewrite !fetchDocumentByID_result, Hdb, coll_of_insert_eq.
  rewrite lookup_insert_eq, Hfree.
  split; [done|]. split; [done|].
  split.
  { eapply parse_data_keeps; [done| |done]. by apply lookup_union_Some_l. }
  split.
  { intros f v Hf Hv Hdata. eapply parse_data_keeps; [done| |by apply is_undef_false].
    unfold spread, obj; simpl. apply lookup_union_Some_raw. right.
    split; [|done]. by rewrite lookup_insert_ne. }
  split.
  { intros f Hf Hdata. eapply parse_data_within; [done|].
    unfold spread, obj; simpl. apply lookup_union_None. split; [|done].
    by rewrite lookup_insert_ne. }
  intros id' Hne. rewrite !fetchDocumentByID_result, Hdb, coll_of_insert_eq.
  by rewrite lookup_insert_ne.
Qed.

(** What [updateDocument] does to the store. *)
Lemma updateDocument_run w c id data :
  run (updateDocument c id data) w =
    match parse_data data with
    | Throw e =>
        (Throw e, World (db w) (trace w) (ticks w) (ids w)
                    (console w ++ ["Error updating document: "]))
    | Ok d =>
        match coll_of (db w) c !! id with
        | None =>
            (Throw (FirebaseError "not-found"),
             World (db w) (trace w ++ [OpUpdate c id d]) (ticks w) (ids w)
               (console w ++ ["Error updating document: "]))
        | Some old =>
            (Ok tt,
             World (<[c := <[id := d ∪ old]> (coll_of (db w) c)]> (db w))
               (trace w ++ [OpUpdate c id d]) (ticks w) (ids w) (console w))
        end
    end.
Proof.
  unfold updateDocument, try_log, doc.
  cbn [run mbind Js_bind call mret Js_ret updateDoc fst snd].
  destruct (parse_data data) as [d|e]; [|done].
  by destruct (coll_of (db w) c !! id).
Qed.

(** X2.  [updateDocument] merges: after a successful update of a stored
    document, [fetchDocumentByID] returns a document in which every
    defined field of the data has the new value and every other field the
    old one, and the other documents read as before.  On a document that
    does not exist the update is refused; it creates nothing. *)
Theorem updateDocument_then_fetch w collectionName id data :
  let r := run (updateDocument collectionName id data) w in
  (∀ old, coll_of (db w) collectionName !! id = Some old →
     r.1 = Ok tt →
     ∃ stored,
       (run (fetchDocumentByID (Some (collectionName, id))) r.2).1 = Ok stored
       ∧ (∀ f v, v ≠ VUndef → data !! f = Some v → stored !! f = Some v)
       ∧ (∀ f, data !! f = None ∨ data !! f = Some VUndef →
            stored !! f = old !! f)
       ∧ (∀ id', id' ≠ id →
            (run (fetchDocumentByID (Some (collectionName, id'))) r.2).1
            = (run (fetchDocumentByID (Some (collectionName, id'))) w).1))
  ∧ (coll_of (db w) collectionName !! id = None →
     (∃ e, r.1 = Throw e) ∧ db r.2 = db w).
Proof.
  intros r. subst r. rewrite updateDocument_run. split.
  - intros old Hold. rewrite Hold.
    destruct (parse_data data) as [d|e] eqn:Hparse; [|done].
    cbn [fst snd]. intros _. exists (d ∪ old).
    rewrite fetchDocumentByID_result. cbn [db].
    rewrite coll_of_insert_eq, lookup_insert_eq.
    split; [done|]. split; [|split].
    + intros f v Hv Hf. apply lookup_union_Some_l.
      eapply parse_data_keeps; [done..|by apply is_undef_false].
    + intros f [Hf|Hf]; apply lookup_union_r.
      * by eapply parse_data_within.
      * by eapply parse_data_undef.
    + intros id' Hne. rewrite !fetchDocumentByID_result. cbn [db].
      by rewrite coll_of_insert_eq, lookup_insert_ne.
  - intros Hnone. rewrite Hnone.
    destruct (parse_data data) as [d|e]; cbn; eauto.
Qed.


(** X4.  [updateStatus] never throws: a failure is logged to the console
    and the call returns as after a success.  For a repair request that
    does not exist nothing is stored.  For one that exists, a status other
    than [undefined] becomes its [status] and its other fields stay; the
    status [undefined] leaves the request as it was. *)
Theorem updateStatus_never_throws w requestId newStatus :
  let r := run (updateStatus requestId newStatus) w in
  let requests := coll_of (db w) "repairRequests" in
  r.1 = Ok tt
  ∧ (requests !! requestId = None →
     db r.2 = db w ∧ console r.2 = console w ++ ["Error updating status:"])
  ∧ (∀ old, requests !! requestId = Some old → newStatus ≠ VUndef →
     ∃ stored,
       coll_of (db r.2) "repairRequests" !! requestId = Some stored
       ∧ stored !! "status" = Some newStatus
       ∧ (∀ f, f ≠ "status" → stored !! f = old !! f)
       ∧ console r.2 = console w)
  ∧ (∀ old, requests !! requestId = Some old → newStatus = VUndef →
     coll_of (db r.2) "repairRequests" !! requestId = Some old).
Proof.
  intros r requests. subst r requests. unfold updateStatus, try_swallow, doc.
  cbn [run mbind Js_bind call mret Js_ret updateDoc fst snd].
  set (data := obj [("status", newStatus)]).
  assert (Hstatus : data !! "status" = Some newStatus) by reflexivity.
  assert (Hother : ∀ f, f ≠ "status" → data !! f = None).
  { intros f Hf. unfold data, obj; simpl. by rewrite lookup_insert_ne. }
  destruct (parse_data data) as [d|e] eqn:Hparse.
  - destruct (coll_of (db w) "repairRequests" !! requestId) as [old|] eqn:Hold.
    + cbn [fst snd log set_coll db console].
      rewrite coll_of_insert_eq, lookup_insert_eq.
      split; [done|]. split; [done|]. split.
      * intros ? [= <-] Hdef. exists (d ∪ old). split; [done|].
        split; [|split; [|done]].
        -- apply lookup_union_Some_l.
           eapply parse_data_keeps; [done..|by apply is_undef_false].
        -- intros f Hf. apply lookup_union_r.
           eapply parse_data_within; [done|]. by apply Hother.
      * intros ? [= <-] ->. f_equal. apply map_eq. intros f.
        rewrite lookup_union_r; [done|].
        destruct (decide (f = "status")) as [->|Hf].
        -- by eapply parse_data_undef.
        -- eapply parse_data_within; [done|]. by apply Hother.
    + cbn. split; [done|]. split; [done|]. split; intros; done.
  - cbn [fst snd db console].
    split; [done|]. split; [done|]. split.
    + intros old Hold Hdef. exfalso.
      assert (parse_data data = Ok data); [|congruence].
      apply parse_data_defined. intros f v Hf.
      destruct (decide (f = "status")) as [->|Hne].
      * rewrite Hstatus in Hf. simplify_eq. by apply is_undef_false.
      * rewrite Hother in Hf; done.
    + by intros.
Qed.

End Generic.

(** ** Listing functions *)

Section Listing.
Context `{RT : Runtime}.

Lemma map_throwing_ok {A B} (f : A → result B) xs :
  (∀ x, In x xs → ∃ b, f x = Ok b) →
  ∃ bs, map_throwing f xs = Ok bs ∧ Forall2 (λ x b, f x = Ok b) xs bs.
Proof.
  induction xs as [|x rest IH]; intros Hall.
  - exists []. by split.
  - destruct (Hall x) as [b Hb]; [by left|].
    destruct IH as (bs & Hbs & Hrel); [intros y Hy; apply Hall; by right|].
    exists (b :: bs). simpl. rewrite Hb, Hbs. split; [done|]. by constructor.
Qed.

Lemma map_throwing_throw {A B} (f : A → result B) e xs :
  (∀ x, In x xs → (∃ b, f x = Ok b) ∨ f x = Throw e) →
  (∃ x, In x xs ∧ f x = Throw e) →
  map_throwing f xs = Throw e.
Proof.
  induction xs as [|x rest IH]; intros Hall (y & Hy & Hthrow); [done|].
  simpl. destruct (Hall x) as [[b Hb]|Hb]; [by left| |by rewrite Hb].
  rewrite Hb. rewrite IH; [done| |].
  - intros z Hz. apply Hall. by right.
  - destruct Hy as [->|Hy]; [congruence|]. by exists y.
Qed.

Lemma fetchDocuments_callback (f : snapshot → result fetchedDocument) :
  f = (λ doc0 : snapshot,
        match optional_toDate (prop doc0.2 "createdAt") with
        | Throw e => Throw e
        | Ok date =>
            Ok (FetchedDocument
                  (delete "createdBy" (delete "createdAt"
                     (spread (obj [("id", VStr doc0.1)]) doc0.2)))
                  date (or_null (prop doc0.2 "createdBy")))
        end) →
  ∀ s : snapshot,
    (has_date s.2 = true ∧ ∃ b, f s = Ok b)
    ∨ (has_date s.2 = false
       ∧ f s = Throw (TypeError "toDate is not a function")).
Proof.
  intros -> [id d]. unfold has_date. cbn [snd].
  destruct (prop d "createdAt"); cbn; eauto.
Qed.

(** The rows [fetchDocuments] returns for a collection whose documents
    all have a date. *)
Lemma fetchDocuments_rows w collectionName :
  (∀ id d, coll_of (db w) collectionName !! id = Some d → has_date d = true) →
  ∃ rows,
    (run (fetchDocuments collectionName) w).1 = Ok rows
    ∧ length rows = size (coll_of (db w) collectionName)
    ∧ ∀ id d, coll_of (db w) collectionName !! id = Some d →
        ∃ row, In row rows
          ∧ fetched_fields row
            = delete "createdBy" (delete "createdAt" (with_id id d))
          ∧ optional_toDate (prop d "createdAt") = Ok (fetched_createdAt row)
          ∧ fetched_createdBy row = or_null (prop d "createdBy").
Proof.
  intros Hall. unfold fetchDocuments, try_log.
  cbn [run mbind Js_bind mret Js_ret getDocs forallb fst snd].
  rewrite filter_all.
  set (docs := coll_of (db w) collectionName) in *.
  set (f := λ doc0 : snapshot, match optional_toDate _ with
                               | Ok date => _ | Throw e => Throw e end).
  pose proof (fetchDocuments_callback f eq_refl) as Hcases.
  destruct (map_throwing_ok f (map_to_list docs)) as (rows & Hrows & Hrel).
  { intros [id d] Hin. apply list_elem_of_In, elem_of_map_to_list in Hin.
    destruct (Hcases (id, d)) as [[_ ?]|[Hbad _]]; [done|].
    cbn [snd] in Hbad. rewrite (Hall id d Hin) in Hbad. done. }
  exists rows. rewrite Hrows. cbn. split; [done|].
  split; [by rewrite <- (Forall2_length _ _ _ Hrel); apply length_map_to_list|].
  intros id d Hd. apply elem_of_map_to_list, list_elem_of_lookup in Hd as [i Hi].
  destruct (Forall2_lookup_l _ _ _ _ _ Hrel Hi) as (row & Hrow & Hf).
  exists row. split; [by eapply list_elem_of_In, list_elem_of_lookup_2|].
  unfold f in Hf. cbn [fst snd] in Hf.
  destruct (optional_toDate (prop d "createdAt")) as [date|e]; [|done].
  by inversion Hf.
Qed.

(** X5.  [fetchDocuments] writes nothing.  It returns one row per
    document of the collection, with the date of the [createdAt]
    timestamp and with [createdBy] or [null], provided that the
    [createdAt] of every document is a timestamp, [null] or absent.  A
    single document whose [createdAt] is anything else (a number, a
    string) makes the whole call fail with a TypeError. *)
Theorem fetchDocuments_needs_timestamps w collectionName :
  let r := run (fetchDocuments collectionName) w in
  let docs := coll_of (db w) collectionName in
  unchanged w r.2
  ∧ ((∀ id d, docs !! id = Some d → has_date d = true) →
     ∃ rows,
       r.1 = Ok rows
       ∧ length rows = size docs
       ∧ ∀ id d, docs !! id = Some d →
           ∃ row, In row rows
             ∧ fetched_fields row
               = delete "createdBy" (delete "createdAt" (with_id id d))
             ∧ optional_toDate (prop d "createdAt") = Ok (fetched_createdAt row)
             ∧ fetched_createdBy row = or_null (prop d "createdBy"))
  ∧ ((∃ id d, docs !! id = Some d ∧ has_date d = false) →
     r.1 = Throw (TypeError "toDate is not a function")).
Proof.
  intros r docs. subst r docs. split; [|split].
  - unfold fetchDocuments, try_log.
    cbn [run mbind Js_bind mret Js_ret getDocs forallb fst snd].
    match goal with
    | |- context [map_throwing ?f ?l] => destruct (map_throwing f l)
    end; cbn; (split; [done|]); solve_writes.
  - apply fetchDocuments_rows.
  - intros (id & d & Hd & Hbad). unfold fetchDocuments, try_log.
    cbn [run mbind Js_bind mret Js_ret getDocs forallb fst snd].
    rewrite filter_all.
    set (f := λ doc0 : snapshot, match optional_toDate _ with
                                 | Ok date => _ | Throw e => Throw e end).
    pose proof (fetchDocuments_callback f eq_refl) as Hcases.
    rewrite (map_throwing_throw f (TypeError "toDate is not a function")).
    + done.
    + intros s _. destruct (Hcases s) as [[_ ?]|[_ ?]]; eauto.
    + exists (id, d). split; [by apply list_elem_of_In, elem_of_map_to_list|].
      destruct (Hcases (id, d)) as [[Hgood _]|[_ ?]]; [|done].
      cbn [snd] in Hgood. congruence.
Qed.

Lemma with_id_id id (d : document) :
  d !! "id" = None → with_id id d !! "id" = Some (VStr id).
Proof.
  intros H. unfold with_id, spread. rewrite lookup_union_r by done.
  reflexivity.
Qed.

(** X6.  In a collection whose documents all have a date, a document
    added by [addDocument] shows up in [fetchDocuments]: the call returns
    one row more than there were documents, among them a row whose
    [createdAt] is the time of the addition and whose [id], when the data
    had no [id] field, is the returned id. *)
Theorem addDocument_then_fetchDocuments w collectionName data id :
  (∀ id d, coll_of (db w) collectionName !! id = Some d → has_date d = true) →
  (run (addDocument collectionName data) w).1 = Ok id →
  let w' := (run (addDocument collectionName data) w).2 in
  ∃ rows row,
    (run (fetchDocuments collectionName) w').1 = Ok rows
    ∧ length rows = S (size (coll_of (db w) collectionName))
    ∧ In row rows
    ∧ fetched_createdAt row = Some (clock (ticks w))
    ∧ (data !! "id" = None → fetched_fields row !! "id" = Some (VStr id)).
Proof.
  intros Hall Hok w'. subst w'.
  destruct (addDocument_ok _ _ _ _ Hok) as (d & Hparse & -> & Hfree & Hdb & _).
  assert (Hcreated : d !! "createdAt" = Some (VTime (clock (ticks w)))).
  { eapply parse_data_keeps; [done| |done]. by apply lookup_union_Some_l. }
  destruct (fetchDocuments_rows (run (addDocument collectionName data) w).2
              collectionName) as (rows & Hrows & Hlen & Hrow).
  { rewrite Hdb, coll_of_insert_eq. intros id' d'.
    rewrite lookup_insert. case_decide.
    - intros [= <-]. unfold has_date, prop. by rewrite Hcreated.
    - apply Hall. }
  rewrite Hdb, coll_of_insert_eq in Hlen, Hrow.
  destruct (Hrow (auto_id (ids w)) d) as (row & Hin & Hfields & Hdate & _).
  { apply lookup_insert_eq. }
  exists rows, row. split; [done|].
  split; [by rewrite Hlen, map_size_insert_None|].
  split; [done|]. split.
  - unfold prop in Hdate. rewrite Hcreated in Hdate. cbn in Hdate. congruence.
  - intros Hnoid. rewrite Hfields, !lookup_delete_ne by done.
    apply with_id_id. eapply parse_data_within; [done|].
    unfold spread, obj; simpl. apply lookup_union_None. split; [|done].
    by rewrite lookup_insert_ne.
Qed.

Lemma getAllApartments_run w :
  run getAllApartments w =
    (Ok (map (λ s : snapshot, with_id s.1 s.2) (map_to_list (apartments w))),
     log (OpGetDocs "apartments" []) w).
Proof.
  unfold getAllApartments, try_log.
  cbn [run mbind Js_bind mret Js_ret getDocs forallb fst snd].
  by rewrite filter_all.
Qed.

Lemma getAllUsers_run w :
  run getAllUsers w =
    (Ok (map (λ s : snapshot, with_id s.1 s.2) (map_to_list (users w))),
     log (OpGetDocs "users" []) w).
Proof.
  unfold getAllUsers, try_log.
  cbn [run mbind Js_bind mret Js_ret getDocs forallb fst snd].
  by rewrite filter_all.
Qed.

(** X7.  [getAllApartments] returns one record per stored apartment, the
    record [{id, ...data}] of each, and writes nothing; every record that
    [getAvailableApartments] returns is among them. *)
Theorem getAvailableApartments_within_all w :
  ∃ every available,
    (run getAllApartments w).1 = Ok every
    ∧ (run getAvailableApartments w).1 = Ok available
    ∧ unchanged w (run getAllApartments w).2
    ∧ length every = size (apartments w)
    ∧ (∀ id d, apartments w !! id = Some d → In (with_id id d) every)
    ∧ (∀ rec, In rec every →
         ∃ id d, apartments w !! id = Some d ∧ rec = with_id id d)
    ∧ (∀ rec, In rec available → In rec every).
Proof.
  rewrite getAllApartments_run, getAvailableApartments_run. cbn [fst snd].
  eexists _, _. split; [done|]. split; [done|].
  split; [split; [done|]; by apply the_writes_read|].
  split; [rewrite length_map; apply length_map_to_list|].
  split; [|split].
  - intros id d Hd. apply in_map_iff. exists (id, d). split; [done|].
    by apply list_elem_of_In, elem_of_map_to_list.
  - intros rec Hin. apply in_map_iff in Hin as ([id d] & <- & Hin).
    apply list_elem_of_In, elem_of_map_to_list in Hin. by exists id, d.
  - intros rec Hin. apply in_map_iff in Hin as (s & <- & Hin).
    apply filter_In in Hin as [Hin _]. apply in_map_iff. by exists s.
Qed.

End Listing.

(** ** Creating apartments *)

Section Creating.
Context `{RT : Runtime}.

Lemma missing_required_field apartmentData field :
  field ∈ ["unitNumber"; "rooms"; "monthlyRent"; "maxOccupants"] →
  truthy (prop apartmentData field) = false →
  missing_required apartmentData = true.
Proof.
  intros Hin Hf. unfold missing_required.
  rewrite !elem_of_cons, elem_of_nil in Hin.
  destruct Hin as [-> | [-> | [-> | [-> | []]]]]; rewrite Hf; cbn;
    by rewrite ?orb_true_r.
Qed.

Lemma missing_required_false apartmentData :
  (∀ field, field ∈ ["unitNumber"; "rooms"; "monthlyRent"; "maxOccupants"] →
     truthy (prop apartmentData field) = true) →
  missing_required apartmentData = false.
Proof.
  intros Hall. unfold missing_required.
  rewrite !Hall; [done|..]; repeat constructor.
Qed.

(** X8.  [createApartment] refuses data in which [unitNumber], [rooms],
    [monthlyRent] or [maxOccupants] is absent or falsy (so also a count of
    0 or an empty unit number) with the missing-fields error, before any
    operation is sent to the store. *)
Theorem createApartment_requires_fields w apartmentData field :
  field ∈ ["unitNumber"; "rooms"; "monthlyRent"; "maxOccupants"] →
  truthy (prop apartmentData field) = false →
  let r := run (createApartment apartmentData) w in
  r.1 = Throw MissingRequiredFields ∧ untouched w r.2.
Proof.
  intros Hin Hf r. subst r.
  pose proof (missing_required_field _ _ Hin Hf) as Hmiss.
  pose proof (createApartment_run w apartmentData) as Hrun.
  destruct (run (createApartment apartmentData) w) as [r w'] eqn:Erun.
  clear Erun. cbn [fst snd] in *.
  inversion Hrun; subst; congruence || done.
Qed.

(** X9.  When the four required fields are present and truthy,
    [createApartment] refuses with the invalid-numbers error, before any
    operation is sent to the store, data in which [rooms], [monthlyRent]
    or [maxOccupants] is not a number (a numeric string, say) or is a
    negative number. *)
Theorem createApartment_rejects_bad_numbers w apartmentData field :
  (∀ f, f ∈ ["unitNumber"; "rooms"; "monthlyRent"; "maxOccupants"] →
     truthy (prop apartmentData f) = true) →
  field ∈ ["rooms"; "monthlyRent"; "maxOccupants"] →
  typeof_number (prop apartmentData field) = false
  ∨ (∃ n, prop apartmentData field = VNum n ∧ n < 0) →
  let r := run (createApartment apartmentData) w in
  r.1 = Throw InvalidNumericValues ∧ untouched w r.2.
Proof.
  intros Hall Hin Hbad r. subst r.
  pose proof (missing_required_false _ Hall) as Hmiss.
  assert (Hinv : invalid_numbers apartmentData = true).
  { assert (Hf : negb (typeof_number (prop apartmentData field))
                 || js_le (prop apartmentData field) 0 = true).
    { destruct Hbad as [Hty|(n & Hn & Hneg)].
      - by rewrite Hty.
      - rewrite Hn. cbn. apply Z.leb_le. lia. }
    apply orb_prop in Hf. unfold invalid_numbers.
    rewrite !elem_of_cons, elem_of_nil in Hin.
    destruct Hin as [-> | [-> | [-> | []]]]; destruct Hf as [-> | ->]; cbn;
      by rewrite ?orb_true_r. }
  pose proof (createApartment_run w apartmentData) as Hrun.
  destruct (run (createApartment apartmentData) w) as [r w'] eqn:Erun.
  clear Erun. cbn [fst snd] in *.
  inversion Hrun; subst; congruence || done.
Qed.

Lemma unit_taken_str w s :
  unit_taken w (VStr s)
  ↔ ∃ id d, apartments w !! id = Some d ∧ d !! "unitNumber" = Some (VStr s).
Proof.
  unfold unit_taken.
  split; intros (id & d & Hd & H); exists id, d; (split; [done|]);
    by apply strict_eq_str.
Qed.

Lemma new_apartment_lookup apartmentData t f :
  f ∉ ["status"; "currentOccupants"; "createdAt"; "updatedAt"] →
  new_apartment apartmentData t !! f = apartmentData !! f.
Proof.
  intros Hf. unfold new_apartment, spread, obj; simpl.
  rewrite !not_elem_of_cons in Hf. destruct Hf as (? & ? & ? & ? & _).
  rewrite lookup_union_r; [done|].
  by rewrite !lookup_insert_ne.
Qed.

Lemma parse_new_apartment apartmentData t :
  (∀ f v, apartmentData !! f = Some v → v ≠ VUndef) →
  parse_data (new_apartment apartmentData t) = Ok (new_apartment apartmentData t).
Proof.
  intros Hdef. apply parse_data_defined. intros f v Hf.
  unfold new_apartment, spread in Hf.
  apply lookup_union_Some_raw in Hf as [Hf|[_ Hf]].
  - unfold obj in Hf; simpl in Hf. rewrite !lookup_insert, lookup_empty in Hf.
    repeat case_decide; by simplify_eq.
  - apply is_undef_false. by eapply Hdef.
Qed.

(** What a successful [createApartment] has done. *)
Lemma createApartment_created w apartmentData rec :
  (run (createApartment apartmentData) w).1 = Ok rec →
  ∃ d,
    missing_required apartmentData = false
    ∧ invalid_numbers apartmentData = false
    ∧ ¬ unit_taken w (prop apartmentData "unitNumber")
    ∧ parse_data (new_apartment apartmentData (ticks w)) = Ok d
    ∧ apartments w !! auto_id (ids w) = None
    ∧ db (run (createApartment apartmentData) w).2
      = <["apartments" := <[auto_id (ids w) := d]> (apartments w)]> (db w)
    ∧ rec = with_id (auto_id (ids w)) (new_apartment apartmentData (ticks w)).
Proof.
  pose proof (createApartment_run w apartmentData) as Hrun.
  destruct (run (createApartment apartmentData) w) as [r w'] eqn:Erun.
  clear Erun. cbn [fst snd] in *. intros ->.
  inversion Hrun; subst. by exists d.
Qed.

Lemma apartments_after_insert (w w' : world) (docs : collection) :
  db w' = <["apartments" := docs]> (db w) → apartments w' = docs.
Proof. intros Hdb. unfold apartments. by rewrite Hdb, coll_of_insert_eq. Qed.

(** X10.  [createApartment] succeeds on data with a non-empty unit number
    that no stored apartment has, positive numbers for [rooms],
    [monthlyRent] and [maxOccupants] and no [undefined] field, when the
    generated id is new.  It stores the data, with [status],
    [currentOccupants], [createdAt] and [updatedAt] set by the function,
    under the generated id, returns the stored document with that id, and
    leaves the other apartments as they were. *)
Theorem createApartment_succeeds w apartmentData s rooms rent occupants :
  apartmentData !! "unitNumber" = Some (VStr s) → s ≠ "" →
  apartmentData !! "rooms" = Some (VNum rooms) → 0 < rooms →
  apartmentData !! "monthlyRent" = Some (VNum rent) → 0 < rent →
  apartmentData !! "maxOccupants" = Some (VNum occupants) → 0 < occupants →
  (∀ f v, apartmentData !! f = Some v → v ≠ VUndef) →
  (∀ id d, apartments w !! id = Some d → d !! "unitNumber" ≠ Some (VStr s)) →
  apartments w !! auto_id (ids w) = None →
  let r := run (createApartment apartmentData) w in
  let id := auto_id (ids w) in
  let stored := new_apartment apartmentData (ticks w) in
  r.1 = Ok (with_id id stored)
  ∧ apartments r.2 !! id = Some stored
  ∧ (∀ f, f ∉ ["status"; "currentOccupants"; "createdAt"; "updatedAt"] →
       stored !! f = apartmentData !! f)
  ∧ stored !! "createdAt" = Some (VTime (clock (ticks w)))
  ∧ stored !! "updatedAt" = Some (VTime (clock (S (ticks w))))
  ∧ (apartmentData !! "id" = None → with_id id stored !! "id" = Some (VStr id))
  ∧ (∀ id', id' ≠ id → apartments r.2 !! id' = apartments w !! id').
Proof.
  intros Hunit Hs Hrooms Hr Hrent Hm Hocc Hk Hdef Hfree Hfresh r id stored.
  subst r id stored.
  assert (Hmiss : missing_required apartmentData = false).
  { apply missing_required_false. intros f Hf.
    rewrite !elem_of_cons, elem_of_nil in Hf.
    destruct Hf as [-> | [-> | [-> | [-> | []]]]];
      erewrite prop_lookup by done; cbn.
    - by rewrite bool_decide_eq_false_2.
    - apply negb_true_iff, Z.eqb_neq. lia.
    - apply negb_true_iff, Z.eqb_neq. lia.
    - apply negb_true_iff, Z.eqb_neq. lia. }
  assert (Hinv : invalid_numbers apartmentData = false).
  { unfold invalid_numbers.
    rewrite (prop_lookup _ _ _ Hrooms), (prop_lookup _ _ _ Hrent),
      (prop_lookup _ _ _ Hocc). cbn.
    rewrite !orb_false_iff. repeat split; apply Z.leb_gt; lia. }
  assert (Htaken : ¬ unit_taken w (prop apartmentData "unitNumber")).
  { rewrite (prop_lookup _ _ _ Hunit), unit_taken_str.
    intros (id & d & Hd & Hu). by eapply Hfree. }
  pose proof (parse_new_apartment apartmentData (ticks w) Hdef) as Hparse.
  pose proof (createApartment_run w apartmentData) as Hrun.
  destruct (run (createApartment apartmentData) w) as [r w'] eqn:Erun.
  clear Erun. cbn [fst snd] in *.
  inversion Hrun; subst; try congruence; try done.
  { exfalso. rewrite Hfresh in *. by destruct H3. }
  replace d with (new_apartment apartmentData (ticks w)) in * by congruence.
  erewrite apartments_after_insert by done.
  split; [done|]. split; [apply lookup_insert_eq|].
  split; [intros f Hf; by apply new_apartment_lookup|].
  split; [by apply lookup_union_Some_l|].
  split; [by apply lookup_union_Some_l|].
  split.
  - intros Hid. apply with_id_id. rewrite new_apartment_lookup; [done|].
    rewrite !not_elem_of_cons. repeat split; try done. apply not_elem_of_nil.
  - intros id' Hne. by rewrite lookup_insert_ne.
Qed.

Lemma missing_required_ext (d d' : document) :
  (∀ f, f ∈ ["unitNumber"; "rooms"; "monthlyRent"; "maxOccupants"] →
     d' !! f = d !! f) →
  missing_required d' = missing_required d
  ∧ invalid_numbers d' = invalid_numbers d
  ∧ prop d' "unitNumber" = prop d "unitNumber".
Proof.
  intros Hsame.
  assert (Hp : ∀ f, f ∈ ["unitNumber"; "rooms"; "monthlyRent"; "maxOccupants"] →
                 prop d' f = prop d f).
  { intros f Hf. unfold prop. by rewrite Hsame. }
  unfold missing_required, invalid_numbers.
  rewrite !Hp; [done|..]; repeat constructor.
Qed.

(** X11.  Unit numbers are unique: after [createApartment] has created an
    apartment with a string as unit number, a second call with the same
    unit number, room count, rent and occupant limit fails with the
    unit-number-exists error and writes nothing. *)
Theorem createApartment_twice w apartmentData rec s apartmentData' :
  (run (createApartment apartmentData) w).1 = Ok rec →
  apartmentData !! "unitNumber" = Some (VStr s) →
  (∀ f, f ∈ ["unitNumber"; "rooms"; "monthlyRent"; "maxOccupants"] →
     apartmentData' !! f = apartmentData !! f) →
  let w1 := (run (createApartment apartmentData) w).2 in
  let r := run (createApartment apartmentData') w1 in
  r.1 = Throw UnitNumberExists ∧ unchanged w1 r.2.
Proof.
  intros Hok Hunit Hsame w1 r. subst w1 r.
  destruct (createApartment_created _ _ _ Hok)
    as (d & Hmiss & Hinv & _ & Hparse & _ & Hdb & _).
  destruct (missing_required_ext apartmentData apartmentData' Hsame)
    as (Hmiss' & Hinv' & Hprop).
  set (w1 := (run (createApartment apartmentData) w).2) in *.
  assert (Htaken : unit_taken w1 (prop apartmentData' "unitNumber")).
  { rewrite Hprop, (prop_lookup _ _ _ Hunit). apply unit_taken_str.
    exists (auto_id (ids w)), d. erewrite apartments_after_insert by done.
    split; [apply lookup_insert_eq|].
    eapply parse_data_keeps; [done| |done].
    rewrite new_apartment_lookup; [done|].
    rewrite !not_elem_of_cons. repeat split; try done. apply not_elem_of_nil. }
  pose proof (createApartment_run w1 apartmentData') as Hrun.
  destruct (run (createApartment apartmentData') w1) as [r w'] eqn:Erun.
  clear Erun. cbn [fst snd] in *.
  inversion Hrun; subst; try congruence; done.
Qed.

(** X12.  A created apartment is listed: after a successful
    [createApartment], both [getAvailableApartments] and
    [getAllApartments] return the record of the stored document, which
    has no occupants, and [getAllApartments] returns one record more than
    before.  When the data held no [undefined] field that record is the
    one [createApartment] returned. *)
Theorem createApartment_then_listed w apartmentData rec :
  (run (createApartment apartmentData) w).1 = Ok rec →
  let w' := (run (createApartment apartmentData) w).2 in
  let id := auto_id (ids w) in
  ∃ stored available every,
    apartments w' !! id = Some stored
    ∧ stored !! "currentOccupants" = Some (VNum 0)
    ∧ (run getAvailableApartments w').1 = Ok available
    ∧ In (with_id id stored) available
    ∧ (run getAllApartments w').1 = Ok every
    ∧ In (with_id id stored) every
    ∧ length every = S (size (apartments w))
    ∧ ((∀ f v, apartmentData !! f = Some v → v ≠ VUndef) →
       rec = with_id id stored).
Proof.
  intros Hok w' id. subst w' id.
  destruct (createApartment_created _ _ _ Hok)
    as (d & _ & _ & _ & Hparse & Hfresh & Hdb & ->).
  set (w' := (run (createApartment apartmentData) w).2) in *.
  pose proof (apartments_after_insert _ _ _ Hdb) as Hapts.
  assert (Hstored : apartments w' !! auto_id (ids w) = Some d)
    by (rewrite Hapts; apply lookup_insert_eq).
  assert (Hcount : d !! "currentOccupants" = Some (VNum 0)).
  { eapply parse_data_keeps; [done| |done]. by apply lookup_union_Some_l. }
  rewrite getAvailableApartments_run, getAllApartments_run. cbn [fst snd].
  exists d. eexists _, _.
  split; [done|]. split; [done|]. split; [done|].
  split.
  { apply in_map_iff. exists (auto_id (ids w), d). split; [done|].
    apply filter_In. split.
    - by apply list_elem_of_In, elem_of_map_to_list.
    - cbn. by rewrite Hcount. }
  split; [done|]. split.
  { apply in_map_iff. exists (auto_id (ids w), d). split; [done|].
    by apply list_elem_of_In, elem_of_map_to_list. }
  split.
  { rewrite length_map, Hapts.
    etrans; [apply length_map_to_list|]. by apply map_size_insert_None. }
  intros Hdef. rewrite (parse_new_apartment _ _ Hdef) in Hparse. congruence.
Qed.

End Creating.

(** ** Updating and deleting apartments *)

Section Updating.
Context `{RT : Runtime}.




(** What a successful [updateApartment] has done. *)
Lemma updateApartment_updated w apartmentId updateData rec :
  (run (updateApartment apartmentId updateData) w).1 = Ok rec →
  ∃ apt d,
    apartments w !! apartmentId = Some apt
    ∧ (truthy (prop updateData "unitNumber") = true →
       ¬ unit_taken_by_other w apartmentId (prop updateData "unitNumber"))
    ∧ parse_data (spread updateData
                    (obj [("updatedAt", VTime (clock (ticks w)))])) = Ok d
    ∧ db (run (updateApartment apartmentId updateData) w).2
      = <["apartments" := <[apartmentId := d ∪ apt]> (apartments w)]> (db w)
    ∧ the_writes (run (updateApartment apartmentId updateData) w).2
      = the_writes w ++ [OpUpdate "apartments" apartmentId d].
Proof.
  pose proof (updateApartment_run w apartmentId updateData) as Hrun.
  destruct (run (updateApartment apartmentId updateData) w) as [r w'] eqn:Erun.
  clear Erun. cbn [fst snd] in *. intros ->.
  inversion Hrun; subst. by exists apt, d.
Qed.

Lemma update_data_lookup (updateData : document) t f :
  f ≠ "updatedAt" →
  spread updateData (obj [("updatedAt", VTime t)]) !! f = updateData !! f.
Proof.
  intros Hf. unfold spread, obj; simpl.
  rewrite lookup_union_r; [done|]. by rewrite lookup_insert_ne.
Qed.

(** X14.  A successful [updateApartment] merges the update into the
    stored apartment: every defined field of the update has the new
    value, [updatedAt] is the time of the call whatever the update said,
    every other field keeps its value, and the other apartments, the
    users and the tenancy records are as before. *)
Theorem updateApartment_merges w apartmentId updateData rec :
  (run (updateApartment apartmentId updateData) w).1 = Ok rec →
  let w' := (run (updateApartment apartmentId updateData) w).2 in
  ∃ old stored,
    apartments w !! apartmentId = Some old
    ∧ apartments w' !! apartmentId = Some stored
    ∧ stored !! "updatedAt" = Some (VTime (clock (ticks w)))
    ∧ (∀ f v, f ≠ "updatedAt" → v ≠ VUndef →
         updateData !! f = Some v → stored !! f = Some v)
    ∧ (∀ f, f ≠ "updatedAt" → updateData !! f = None →
         stored !! f = old !! f)
    ∧ (∀ id, id ≠ apartmentId → apartments w' !! id = apartments w !! id)
    ∧ users w' = users w
    ∧ tenantApartments w' = tenantApartments w.
Proof.
  intros Hok w'. subst w'.
  destruct (updateApartment_updated _ _ _ _ Hok)
    as (apt & d & Hapt & _ & Hparse & Hdb & _).
  exists apt, (d ∪ apt). split; [done|].
  erewrite apartments_after_insert by done.
  split; [apply lookup_insert_eq|]. split.
  { apply lookup_union_Some_l. eapply parse_data_keeps; [done| |done].
    by apply lookup_union_Some_l. }
  split.
  { intros f v Hf Hv Hupd. apply lookup_union_Some_l.
    eapply parse_data_keeps; [done| |by apply is_undef_false].
    by rewrite update_data_lookup. }
  split.
  { intros f Hf Hupd. apply lookup_union_r.
    eapply parse_data_within; [done|]. by rewrite update_data_lookup. }
  split; [intros id Hne; by rewrite lookup_insert_ne|].
  unfold users, tenantApartments. rewrite Hdb.
  by rewrite !coll_of_insert_ne.
Qed.

End Updating.

(** ** Deleting, and what the functions keep *)

Section Keeping.
Context `{RT : Runtime}.

(** The three ways [deleteApartment] ends. *)
Lemma deleteApartment_cases w apartmentId :
  let r := run (deleteApartment apartmentId) w in
  (apartments w !! apartmentId = None
   ∧ r.1 = Throw ApartmentNotFound ∧ db r.2 = db w)
  ∨ (is_Some (apartments w !! apartmentId)
     ∧ has_active_tenant w apartmentId
     ∧ r.1 = Throw (Error "Cannot delete apartment with active tenants")
     ∧ db r.2 = db w)
  ∨ (is_Some (apartments w !! apartmentId)
     ∧ ¬ has_active_tenant w apartmentId
     ∧ r.1 = Ok (obj [("success", VBool true);
                      ("message", VStr "Apartment deleted successfully")])
     ∧ db r.2 = <["apartments" := delete apartmentId (apartments w)]> (db w)).
Proof.
  intros r. subst r. unfold deleteApartment, try_log, doc.
  cbn [run mbind Js_bind call mret Js_ret getDoc fst snd].
  fold (apartments w).
  destruct (apartments w !! apartmentId) as [apt|] eqn:Hapt.
  2:{ left. by cbn. }
  right.
  cbn [run mbind Js_bind mret Js_ret getDocs forallb fst snd log db].
  rewrite filter_all. fold (tenantApartments w).
  pose proof (active_tenants_filter (tenantApartments w) apartmentId) as Hq.
  fold (has_active_tenant w apartmentId) in Hq.
  match goal with
  | |- context [List.filter ?f ?l] => destruct (List.filter f l) as [|s rest]
  end.
  - right. cbn [length Nat.ltb Nat.leb].
    cbn [run mbind Js_bind mret Js_ret deleteDoc fst snd log set_coll db].
    fold (apartments w).
    split; [eauto|]. split; [|done]. intros H. by apply Hq in H.
  - left. cbn. split; [eauto|]. split; [|done]. by apply Hq.
Qed.

(** What a successful [assignTenant] has done. *)
Lemma assignTenant_assigned w userId apartmentId lease rec :
  (run (assignTenant userId apartmentId lease) w).1 = Ok rec →
  ∃ apt usr d,
    apartments w !! apartmentId = Some apt
    ∧ js_ge (prop apt "currentOccupants") 3 = false
    ∧ users w !! userId = Some usr
    ∧ parse_data (tenancy_record userId apartmentId lease apt (ticks w)) = Ok d
    ∧ tenantApartments w !! auto_id (ids w) = None
    ∧ db (run (assignTenant userId apartmentId lease) w).2 =
        <["users" :=
            <[userId := user_update apartmentId (3 + ticks w) ∪ usr]> (users w)]>
        (<["apartments" :=
            <[apartmentId := occupants_update apt (2 + ticks w) ∪ apt]>
              (apartments w)]>
        (<["tenantApartments" :=
            <[auto_id (ids w) := d]> (tenantApartments w)]> (db w))).
Proof.
  pose proof (assignTenant_run w userId apartmentId lease) as Hrun.
  destruct (run (assignTenant userId apartmentId lease) w) as [r w'] eqn:Erun.
  clear Erun. cbn [fst snd] in *. intros ->.
  inversion Hrun; subst. by exists apt, usr, d.
Qed.

Lemma collections_after_assign (w w' : world)
    (newUsers newApartments newTenancies : collection) :
  db w' = <["users" := newUsers]> (<["apartments" := newApartments]>
            (<["tenantApartments" := newTenancies]> (db w))) →
  users w' = newUsers ∧ apartments w' = newApartments
  ∧ tenantApartments w' = newTenancies.
Proof.
  intros Hdb. unfold users, apartments, tenantApartments. rewrite Hdb.
  rewrite !coll_of_insert. by repeat case_decide.
Qed.

(** A failed [assignTenant] stores nothing. *)
Lemma assignTenant_failed w userId apartmentId lease e :
  (run (assignTenant userId apartmentId lease) w).1 = Throw e →
  db (run (assignTenant userId apartmentId lease) w).2 = db w.
Proof.
  pose proof (assignTenant_run w userId apartmentId lease) as Hrun.
  destruct (run (assignTenant userId apartmentId lease) w) as [r w'] eqn:Erun.
  clear Erun. cbn [fst snd] in *. intros ->.
  inversion Hrun; subst; try done;
    match goal with H : unchanged _ _ |- _ => apply H end.
Qed.

(** X15.  After [deleteApartment] has succeeded the apartment is gone:
    deleting it again, updating it and assigning a tenant to it all fail
    with the not-found error.  The other apartments, the users and the
    tenancy records are as before. *)
Theorem deleteApartment_then_gone w apartmentId res :
  (run (deleteApartment apartmentId) w).1 = Ok res →
  let w' := (run (deleteApartment apartmentId) w).2 in
  (run (deleteApartment apartmentId) w').1 = Throw ApartmentNotFound
  ∧ (∀ updateData,
       (run (updateApartment apartmentId updateData) w').1
       = Throw ApartmentNotFound)
  ∧ (∀ userId lease,
       (run (assignTenant userId apartmentId lease) w').1
       = Throw ApartmentNotFound)
  ∧ (∀ id, id ≠ apartmentId → apartments w' !! id = apartments w !! id)
  ∧ users w' = users w
  ∧ tenantApartments w' = tenantApartments w.
Proof.
  intros Hok w'. subst w'.
  destruct (deleteApartment_cases w apartmentId)
    as [(_ & Hres & _)|[(_ & _ & Hres & _)|(_ & _ & _ & Hdb)]];
    [rewrite Hres in Hok; done..|].
  set (w' := (run (deleteApartment apartmentId) w).2) in *.
  pose proof (apartments_after_insert _ _ _ Hdb) as Hapts.
  assert (Hgone : apartments w' !! apartmentId = None)
    by (rewrite Hapts; apply lookup_delete_eq).
  split; [|split; [|split; [|split; [|split]]]].
  - destruct (deleteApartment_cases w' apartmentId)
      as [(_ & Hres & _)|[([? H] & _)|([? H] & _)]]; [done|congruence..].
  - intros updateData.
    pose proof (updateApartment_run w' apartmentId updateData) as Hrun.
    destruct (run (updateApartment apartmentId updateData) w') as [r w2].
    cbn [fst snd] in *. inversion Hrun; subst; congruence.
  - intros userId lease.
    pose proof (assignTenant_run w' userId apartmentId lease) as Hrun.
    destruct (run (assignTenant userId apartmentId lease) w') as [r w2].
    cbn [fst snd] in *. inversion Hrun; subst; congruence.
  - intros id Hne. rewrite Hapts. by apply lookup_delete_ne.
  - unfold users. rewrite Hdb. by rewrite coll_of_insert_ne.
  - unfold tenantApartments. rewrite Hdb. by rewrite coll_of_insert_ne.
Qed.

Lemma tenancy_record_apartmentId userId apartmentId lease apt t :
  tenancy_record userId apartmentId lease apt t !! "apartmentId"
    = Some (VStr apartmentId).
Proof. reflexivity. Qed.

(** X16.  An apartment that has just been given a tenant cannot be
    deleted: after a successful [assignTenant], [deleteApartment] on the
    apartment fails with the active-tenants error and the apartment
    stays. *)
Theorem assignTenant_then_delete_refused w userId apartmentId lease rec :
  (run (assignTenant userId apartmentId lease) w).1 = Ok rec →
  let w' := (run (assignTenant userId apartmentId lease) w).2 in
  let r := run (deleteApartment apartmentId) w' in
  r.1 = Throw (Error "Cannot delete apartment with active tenants")
  ∧ db r.2 = db w'
  ∧ is_Some (apartments r.2 !! apartmentId).
Proof.
  intros Hok w' r. subst w' r.
  destruct (assignTenant_assigned _ _ _ _ _ Hok)
    as (apt & usr & d & Hapt & _ & _ & Hparse & _ & Hdb).
  set (w' := (run (assignTenant userId apartmentId lease) w).2) in *.
  destruct (collections_after_assign _ _ _ _ _ Hdb) as (_ & Hapts & Htas).
  assert (Hsome : is_Some (apartments w' !! apartmentId)).
  { rewrite Hapts, lookup_insert_eq. eauto. }
  assert (Hact : has_active_tenant w' apartmentId).
  { exists (auto_id (ids w)), d. rewrite Htas.
    split; [apply lookup_insert_eq|]. split.
    - eapply parse_data_keeps; [done|apply tenancy_record_apartmentId|done].
    - eapply parse_data_keeps; [done|apply tenancy_record_status|done]. }
  destruct (deleteApartment_cases w' apartmentId)
    as [(Hnone & _)|[(_ & _ & Hres & Hsame)|(_ & Hno & _)]].
  - rewrite Hnone in Hsome. by destruct Hsome.
  - split; [done|]. split; [done|]. unfold apartments. by rewrite Hsame.
  - done.
Qed.




Lemma occupants_update_other apt t f :
  f ≠ "currentOccupants" → f ≠ "updatedAt" →
  (occupants_update apt t ∪ apt) !! f = apt !! f.
Proof.
  intros H1 H2. apply lookup_union_r. unfold occupants_update, obj; simpl.
  by rewrite !lookup_insert_ne.
Qed.

Lemma user_update_other apartmentId (usr : document) t f :
  f ≠ "apartmentId" → f ≠ "updatedAt" →
  (user_update apartmentId t ∪ usr) !! f = usr !! f.
Proof.
  intros H1 H2. apply lookup_union_r. unfold user_update, obj; simpl.
  by rewrite !lookup_insert_ne.
Qed.

(** X19.  A successful [assignTenant] changes, in the apartment, only
    [currentOccupants] and [updatedAt] (so [status] and [maxOccupants]
    stay as they were) and, in the user, only [apartmentId] and
    [updatedAt]; the other apartments, users and tenancy records are as
    before. *)
Theorem assignTenant_keeps_other_fields w userId apartmentId lease rec :
  (run (assignTenant userId apartmentId lease) w).1 = Ok rec →
  let w' := (run (assignTenant userId apartmentId lease) w).2 in
  ∃ apt apt' usr usr',
    apartments w !! apartmentId = Some apt
    ∧ apartments w' !! apartmentId = Some apt'
    ∧ (∀ f, f ≠ "currentOccupants" → f ≠ "updatedAt" → apt' !! f = apt !! f)
    ∧ users w !! userId = Some usr
    ∧ users w' !! userId = Some usr'
    ∧ (∀ f, f ≠ "apartmentId" → f ≠ "updatedAt" → usr' !! f = usr !! f)
    ∧ (∀ id, id ≠ apartmentId → apartments w' !! id = apartments w !! id)
    ∧ (∀ id, id ≠ userId → users w' !! id = users w !! id)
    ∧ (∀ id, id ≠ auto_id (ids w) →
         tenantApartments w' !! id = tenantApartments w !! id).
Proof.
  intros Hok w'. subst w'.
  destruct (assignTenant_assigned _ _ _ _ _ Hok)
    as (apt & usr & d & Hapt & _ & Husr & _ & _ & Hdb).
  destruct (collections_after_assign _ _ _ _ _ Hdb) as (Hus & Hapts & Htas).
  rewrite Hus, Hapts, Htas.
  eexists apt, _, usr, _.
  split; [done|]. split; [apply lookup_insert_eq|].
  split; [intros f; apply occupants_update_other|].
  split; [done|]. split; [apply lookup_insert_eq|].
  split; [intros f; apply user_update_other|].
  repeat split; intros id Hne; by rewrite lookup_insert_ne.
Qed.


(** X21.  After a successful [assignTenant], [getAllUsers] lists the
    user with the apartment as [apartmentId], among as many users as
    before. *)
Theorem assignTenant_then_getAllUsers w userId apartmentId lease rec :
  (run (assignTenant userId apartmentId lease) w).1 = Ok rec →
  let w' := (run (assignTenant userId apartmentId lease) w).2 in
  ∃ usr' listed,
    users w' !! userId = Some usr'
    ∧ usr' !! "apartmentId" = Some (VStr apartmentId)
    ∧ (run getAllUsers w').1 = Ok listed
    ∧ In (with_id userId usr') listed
    ∧ length listed = size (users w).
Proof.
  intros Hok w'. subst w'.
  destruct (assignTenant_assigned _ _ _ _ _ Hok)
    as (apt & usr & d & _ & _ & Husr & _ & _ & Hdb).
  set (w' := (run (assignTenant userId apartmentId lease) w).2) in *.
  destruct (collections_after_assign _ _ _ _ _ Hdb) as (Hus & _ & _).
  assert (Hstored : users w' !! userId
                    = Some (user_update apartmentId (3 + ticks w) ∪ usr))
    by (rewrite Hus; apply lookup_insert_eq).
  eexists _, _. split; [done|].
  split; [by apply lookup_union_Some_l|].
  rewrite getAllUsers_run. cbn [fst snd]. split; [done|]. split.
  - apply in_map_iff. eexists (userId, _). split; [done|].
    by apply list_elem_of_In, elem_of_map_to_list.
  - rewrite length_map, Hus. etrans; [apply length_map_to_list|].
    by eapply map_size_insert_Some.
Qed.

Lemma parse_data_sub (data d : document) k v :
  parse_data data = Ok d → d !! k = Some v → data !! k = Some v.
Proof.
  unfold parse_data. intros Hp Hk.
  destruct ignoreUndefinedProperties.
  - inversion Hp; subst. by apply map_lookup_filter_Some in Hk as [? _].
  - case_bool_decide; by simplify_eq.
Qed.

Lemma unique_units_insert (docs : collection) a new :
  unique_units docs →
  (∀ s j e, s ≠ "" → new !! "unitNumber" = Some (VStr s) →
     j ≠ a → docs !! j = Some e → e !! "unitNumber" = Some (VStr s) → False) →
  unique_units (<[a := new]> docs).
Proof.
  intros Hinv Hnew i j d e s Hi Hj Hs Hd He.
  rewrite lookup_insert in Hi, Hj.
  repeat case_decide; simplify_eq; try done.
  - exfalso. solve [eapply (Hnew s i); eauto | eapply (Hnew s j); eauto].
  - exfalso. solve [eapply (Hnew s i); eauto | eapply (Hnew s j); eauto].
  - by eapply Hinv.
Qed.

Lemma unique_units_delete (docs : collection) a :
  unique_units docs → unique_units (delete a docs).
Proof.
  intros Hinv i j d e s Hi Hj.
  apply lookup_delete_Some in Hi as [_ Hi], Hj as [_ Hj]. by eapply Hinv.
Qed.

(** X22.  Unit numbers stay unique: if no two apartments share a unit
    number that is a non-empty string, the same holds after any call of
    [createApartment], [updateApartment], [deleteApartment] or
    [assignTenant], whatever the arguments and the outcome. *)
Theorem unit_numbers_stay_unique w :
  unique_unit_numbers w →
  (∀ apartmentData,
     unique_unit_numbers (run (createApartment apartmentData) w).2)
  ∧ (∀ apartmentId updateData,
       unique_unit_numbers (run (updateApartment apartmentId updateData) w).2)
  ∧ (∀ apartmentId,
       unique_unit_numbers (run (deleteApartment apartmentId) w).2)
  ∧ (∀ userId apartmentId lease,
       unique_unit_numbers (run (assignTenant userId apartmentId lease) w).2).
Proof.
  intros Hinv.
  assert (Hsame : ∀ w' : world, db w' = db w → unique_unit_numbers w').
  { intros w' Hdb. unfold unique_unit_numbers, apartments in *. by rewrite Hdb. }
  split; [|split; [|split]].
  - intros apartmentData.
    pose proof (createApartment_run w apartmentData) as Hrun.
    destruct (run (createApartment apartmentData) w) as [r w'].
    cbn [fst snd] in *.
    inversion Hrun; subst; try (apply Hsame; done);
      try (apply Hsame;
           match goal with
           | H : untouched _ _ |- _ => apply H
           | H : unchanged _ _ |- _ => apply H
           end).
    unfold unique_unit_numbers. erewrite apartments_after_insert by done.
    apply unique_units_insert; [done|].
    intros s j e Hs Hd _ Hj He.
    match goal with H : ¬ unit_taken _ _ |- _ => apply H end.
    assert (Hnew : new_apartment apartmentData (ticks w) !! "unitNumber"
                   = Some (VStr s)) by by eapply parse_data_sub.
    rewrite new_apartment_lookup in Hnew.
    2:{ rewrite !not_elem_of_cons. repeat split; try done.
        apply not_elem_of_nil. }
    rewrite (prop_lookup _ _ _ Hnew). apply unit_taken_str. by exists j, e.
  - intros apartmentId updateData.
    pose proof (updateApartment_run w apartmentId updateData) as Hrun.
    destruct (run (updateApartment apartmentId updateData) w) as [r w'].
    cbn [fst snd] in *.
    inversion Hrun; subst;
      try (apply Hsame;
           match goal with H : unchanged _ _ |- _ => apply H end).
    unfold unique_unit_numbers. erewrite apartments_after_insert by done.
    apply unique_units_insert; [done|].
    intros s j e Hs Hd Hne Hj He.
    apply lookup_union_Some_raw in Hd as [Hd|[_ Hd]].
    + assert (Hupd : updateData !! "unitNumber" = Some (VStr s)).
      { rewrite <- (update_data_lookup _ (clock (ticks w))) by done.
        by eapply parse_data_sub. }
      match goal with
      | H : truthy _ = true → ¬ unit_taken_by_other _ _ _ |- _ =>
          rename H into Hfree
      end.
      rewrite (prop_lookup _ _ _ Hupd) in Hfree. apply Hfree.
      * cbn. by rewrite bool_decide_eq_false_2.
      * exists j, e. split; [done|]. split; [done|]. by apply strict_eq_str.
    + apply Hne. by eapply (Hinv j apartmentId e apt s).
  - intros apartmentId.
    destruct (deleteApartment_cases w apartmentId)
      as [(_ & _ & Hdb)|[(_ & _ & _ & Hdb)|(_ & _ & _ & Hdb)]];
      [by apply Hsame..|].
    unfold unique_unit_numbers. erewrite apartments_after_insert by done.
    by apply unique_units_delete.
  - intros userId apartmentId lease.
    destruct (run (assignTenant userId apartmentId lease) w).1 as [rec|e] eqn:Hres.
    2:{ apply Hsame. by eapply assignTenant_failed. }
    destruct (assignTenant_assigned _ _ _ _ _ Hres)
      as (apt & usr & d & Hapt & _ & _ & _ & _ & Hdb).
    destruct (collections_after_assign _ _ _ _ _ Hdb) as (_ & Hapts & _).
    unfold unique_unit_numbers. rewrite Hapts.
    apply unique_units_insert; [done|].
    intros s j e Hs Hd Hne Hj He.
    rewrite occupants_update_other in Hd by done.
    apply Hne. by eapply (Hinv j apartmentId e apt s).
Qed.

End Keeping.

(** ** The further properties at the sample data *)

Lemma addDocument_then_fetch_witness :
  let data := obj [("title", VStr "No heating"); ("createdAt", VStr "yesterday")] in
  let w' := (run (addDocument (RT := sample_runtime) "repairRequests" data)
               requests_world).2 in
  ∃ stored,
    (run (fetchDocumentByID (Some ("repairRequests", "auto0"))) w').1 = Ok stored
    ∧ stored !! "createdAt" = Some (VTime 1700000000000)
    ∧ stored !! "title" = Some (VStr "No heating").
Proof.
  intros data w'.
  assert (Hok : (run (addDocument (RT := sample_runtime) "repairRequests" data)
                   requests_world).1 = Ok "auto0") by compute_done.
  destruct (addDocument_then_fetch (RT := sample_runtime) _ _ _ _ Hok)
    as (stored & Hfetch & _ & Hcreated & Hkeep & _).
  exists stored. split; [exact Hfetch|]. split; [exact Hcreated|].
  apply Hkeep; [discriminate | discriminate | compute_done].
Defined.

Lemma updateDocument_then_fetch_witness :
  let data := obj [("status", VStr "done")] in
  let r := run (updateDocument (RT := sample_runtime) "repairRequests" "r1" data)
             requests_world in
  (∃ stored,
     (run (fetchDocumentByID (Some ("repairRequests", "r1"))) r.2).1 = Ok stored
     ∧ stored !! "status" = Some (VStr "done")
     ∧ stored !! "title" = Some (VStr "Leaking tap"))
  ∧ (∃ e, (run (updateDocument (RT := sample_runtime) "repairRequests" "r9" data)
             requests_world).1 = Throw e).
Proof.
  intros data r.
  destruct (updateDocument_then_fetch (RT := sample_runtime)
              requests_world "repairRequests" "r1" data) as [Hmerge _].
  destruct (Hmerge leaking_tap) as (stored & Hfetch & Hnew & Hold & _);
    [compute_done | compute_done |].
  destruct (updateDocument_then_fetch (RT := sample_runtime)
              requests_world "repairRequests" "r9" data) as [_ Hmissing].
  split.
  - exists stored. split; [exact Hfetch|]. split.
    + apply Hnew; [discriminate | compute_done].
    + rewrite (Hold "title"); [compute_done | left; compute_done].
  - apply Hmissing. compute_done.
Defined.

Lemma fetchDocuments_needs_timestamps_witness :
  (∃ rows, (run (fetchDocuments "repairRequests") requests_world).1 = Ok rows
           ∧ length rows = 2%nat)
  ∧ (run (fetchDocuments "imported") requests_world).1
    = Throw (TypeError "toDate is not a function").
Proof.
  split.
  - destruct (fetchDocuments_needs_timestamps requests_world "repairRequests")
      as (_ & Hrows & _).
    destruct Hrows as (rows & Hres & Hlen & _).
    { intros id d Hd.
      assert (Hdocs : coll_of (db requests_world) "repairRequests"
                      = {[ "r1" := leaking_tap; "r2" := broken_window ]})
        by compute_done.
      rewrite Hdocs in Hd.
      apply lookup_insert_Some in Hd as [[_ <-]|[_ Hd]]; [compute_done|].
      apply lookup_singleton_Some in Hd as [_ <-]. compute_done. }
    exists rows. split; [exact Hres|]. rewrite Hlen. compute_done.
  - destruct (fetchDocuments_needs_timestamps requests_world "imported")
      as (_ & _ & Hthrow).
    apply Hthrow.
    exists "i1", (obj [("title", VStr "Old entry");
                       ("createdAt", VNum 1680000000000)]).
    split; compute_done.
Defined.

Lemma addDocument_then_fetchDocuments_witness :
  let data := obj [("title", VStr "No heating")] in
  let w' := (run (addDocument (RT := sample_runtime) "repairRequests" data)
               requests_world).2 in
  ∃ rows row,
    (run (fetchDocuments "repairRequests") w').1 = Ok rows
    ∧ length rows = 3%nat
    ∧ In row rows
    ∧ fetched_createdAt row = Some 1700000000000
    ∧ fetched_fields row !! "id" = Some (VStr "auto0").
Proof.
  intros data w'.
  assert (Hok : (run (addDocument (RT := sample_runtime) "repairRequests" data)
                   requests_world).1 = Ok "auto0") by compute_done.
  destruct (addDocument_then_fetchDocuments (RT := sample_runtime)
              requests_world "repairRequests" data "auto0")
    as (rows & row & Hres & Hlen & Hin & Hdate & Hid); [|exact Hok|].
  { intros id d Hd.
    assert (Hdocs : coll_of (db requests_world) "repairRequests"
                    = {[ "r1" := leaking_tap; "r2" := broken_window ]})
      by compute_done.
    rewrite Hdocs in Hd.
    apply lookup_insert_Some in Hd as [[_ <-]|[_ Hd]]; [compute_done|].
    apply lookup_singleton_Some in Hd as [_ <-]. compute_done. }
  exists rows, row. split; [exact Hres|].
  split; [rewrite Hlen; compute_done|].
  split; [exact Hin|]. split; [exact Hdate|]. apply Hid. compute_done.
Defined.

Lemma createApartment_requires_fields_witness :
  let apartmentData :=
    obj [("unitNumber", VStr "9Z"); ("rooms", VNum 0);
         ("monthlyRent", VNum 1000); ("maxOccupants", VNum 2)] in
  let r := run (createApartment (RT := sample_runtime) apartmentData)
             sample_world in
  r.1 = Throw MissingRequiredFields ∧ untouched sample_world r.2.
Proof.
  intros apartmentData r.
  apply (createApartment_requires_fields (RT := sample_runtime)
           sample_world apartmentData "rooms").
  - apply (bool_decide_unpack _). compute_done.
  - compute_done.
Defined.

Lemma createApartment_rejects_bad_numbers_witness :
  let apartmentData :=
    obj [("unitNumber", VStr "9Z"); ("rooms", VStr "2");
         ("monthlyRent", VNum 1000); ("maxOccupants", VNum 2)] in
  let r := run (createApartment (RT := sample_runtime) apartmentData)
             sample_world in
  r.1 = Throw InvalidNumericValues ∧ untouched sample_world r.2.
Proof.
  intros apartmentData r.
  apply (createApartment_rejects_bad_numbers (RT := sample_runtime)
           sample_world apartmentData "rooms").
  - intros f Hf. rewrite !elem_of_cons, elem_of_nil in Hf.
    destruct Hf as [-> | [-> | [-> | [-> | []]]]]; compute_done.
  - apply (bool_decide_unpack _). compute_done.
  - left. compute_done.
Defined.

Lemma createApartment_succeeds_witness :
  let r := run (createApartment (RT := sample_runtime) unit_9Z) sample_world in
  r.1 = Ok (with_id "auto0" (new_apartment (RT := sample_runtime) unit_9Z 0))
  ∧ apartments r.2 !! "auto0"
    = Some (new_apartment (RT := sample_runtime) unit_9Z 0).
Proof.
  intros r.
  assert (Hdef : map_Forall (λ _ v, v ≠ VUndef) unit_9Z) by compute_done.
  assert (Hfree : map_Forall (λ (_ : string) (d : document),
                     d !! "unitNumber" ≠ Some (VStr "9Z"))
                    (apartments sample_world)) by compute_done.
  destruct (createApartment_succeeds (RT := sample_runtime)
              sample_world unit_9Z "9Z" 2 1000 2)
    as (Hres & Hstored & _);
    [compute_done | discriminate | compute_done | reflexivity | compute_done
    | reflexivity | compute_done | reflexivity | exact Hdef | exact Hfree
    | compute_done |].
  split; [exact Hres | exact Hstored].
Defined.

Lemma createApartment_twice_witness :
  let w1 := (run (createApartment (RT := sample_runtime) unit_9Z)
               sample_world).2 in
  let r := run (createApartment (RT := sample_runtime)
                  (<["floor" := VNum 4]> unit_9Z)) w1 in
  r.1 = Throw UnitNumberExists ∧ unchanged w1 r.2.
Proof.
  intros w1 r.
  assert (Hok : (run (createApartment (RT := sample_runtime) unit_9Z)
                   sample_world).1
                = Ok (with_id "auto0"
                        (new_apartment (RT := sample_runtime) unit_9Z 0)))
    by compute_done.
  apply (createApartment_twice (RT := sample_runtime) sample_world unit_9Z
           _ "9Z" (<["floor" := VNum 4]> unit_9Z) Hok).
  - compute_done.
  - intros f Hf. rewrite !elem_of_cons, elem_of_nil in Hf.
    destruct Hf as [-> | [-> | [-> | [-> | []]]]]; compute_done.
Defined.

Lemma createApartment_then_listed_witness :
  let w' := (run (createApartment (RT := sample_runtime) unit_9Z)
               sample_world).2 in
  ∃ stored available every,
    apartments w' !! "auto0" = Some stored
    ∧ (run getAvailableApartments w').1 = Ok available
    ∧ In (with_id "auto0" stored) available
    ∧ (run getAllApartments w').1 = Ok every
    ∧ length every = 4%nat.
Proof.
  intros w'.
  assert (Hok : (run (createApartment (RT := sample_runtime) unit_9Z)
                   sample_world).1
                = Ok (with_id "auto0"
                        (new_apartment (RT := sample_runtime) unit_9Z 0)))
    by compute_done.
  destruct (createApartment_then_listed (RT := sample_runtime) _ _ _ Hok)
    as (stored & available & every & Hs & _ & Ha & Hin & He & _ & Hlen & _).
  exists stored, available, every.
  split; [exact Hs|]. split; [exact Ha|]. split; [exact Hin|].
  split; [exact He|]. rewrite Hlen. compute_done.
Defined.


Lemma updateApartment_merges_witness :
  let w' := (run (updateApartment (RT := sample_runtime) "a2"
                    (obj [("monthlyRent", VNum 1300)])) sample_world).2 in
  ∃ stored,
    apartments w' !! "a2" = Some stored
    ∧ stored !! "monthlyRent" = Some (VNum 1300)
    ∧ stored !! "unitNumber" = Some (VStr "2B")
    ∧ stored !! "updatedAt" = Some (VTime 1700000000000).
Proof.
  intros w'.
  assert (Hok : (run (updateApartment (RT := sample_runtime) "a2"
                        (obj [("monthlyRent", VNum 1300)])) sample_world).1
                = Ok (obj [("id", VStr "a2"); ("monthlyRent", VNum 1300);
                           ("updatedAt", VTime 1700000000000)]))
    by compute_done.
  destruct (updateApartment_merges (RT := sample_runtime) _ _ _ _ Hok)
    as (old & stored & Hold & Hstored & Hat & Hnew & Hkeep & _).
  assert (Hold' : old = unit_2B).
  { assert (H : apartments sample_world !! "a2" = Some unit_2B) by compute_done.
    rewrite H in Hold. by injection Hold. }
  exists stored. split; [exact Hstored|]. split.
  - apply Hnew; [discriminate | discriminate | compute_done].
  - split; [|exact Hat].
    rewrite (Hkeep "unitNumber"); [|discriminate | compute_done].
    rewrite Hold'. compute_done.
Defined.

Lemma deleteApartment_then_gone_witness :
  let w' := (run (deleteApartment "a1") sample_world).2 in
  (run (deleteApartment "a1") w').1 = Throw ApartmentNotFound
  ∧ (run (assignTenant (RT := sample_runtime) "u1" "a1"
            (LeaseData jan_1 dec_31)) w').1 = Throw ApartmentNotFound.
Proof.
  intros w'.
  assert (Hok : (run (deleteApartment "a1") sample_world).1
                = Ok (obj [("success", VBool true);
                           ("message", VStr "Apartment deleted successfully")]))
    by compute_done.
  destruct (deleteApartment_then_gone (RT := sample_runtime) _ _ _ Hok)
    as (Hagain & _ & Hassign & _).
  split; [exact Hagain | apply Hassign].
Defined.

Lemma assignTenant_then_delete_refused_witness :
  let lease := LeaseData jan_1 dec_31 in
  let w' := (run (assignTenant (RT := sample_runtime) "u1" "a2" lease)
               sample_world).2 in
  (run (deleteApartment "a2") w').1
  = Throw (Error "Cannot delete apartment with active tenants").
Proof.
  intros lease w'.
  assert (Hok : (run (assignTenant (RT := sample_runtime) "u1" "a2" lease)
                   sample_world).1
                = Ok (spread (obj [("id", VStr "auto0")])
                        (tenancy_record (RT := sample_runtime) "u1" "a2" lease
                           unit_2B 0))) by compute_done.
  exact (proj1 (assignTenant_then_delete_refused (RT := sample_runtime)
                  _ _ _ _ _ Hok)).
Defined.



Lemma assignTenant_keeps_other_fields_witness :
  let lease := LeaseData jan_1 dec_31 in
  let w' := (run (assignTenant (RT := sample_runtime) "u1" "a2" lease)
               sample_world).2 in
  ∃ apt',
    apartments w' !! "a2" = Some apt'
    ∧ apt' !! "status" = Some (VStr "available")
    ∧ apt' !! "maxOccupants" = Some (VNum 2).
Proof.
  intros lease w'.
  assert (Hok : (run (assignTenant (RT := sample_runtime) "u1" "a2" lease)
                   sample_world).1
                = Ok (spread (obj [("id", VStr "auto0")])
                        (tenancy_record (RT := sample_runtime) "u1" "a2" lease
                           unit_2B 0))) by compute_done.
  destruct (assignTenant_keeps_other_fields (RT := sample_runtime)
              _ _ _ _ _ Hok)
    as (apt & apt' & usr & usr' & Hapt & Hapt' & Hkeep & _).
  assert (Hold : apt = unit_2B).
  { assert (H : apartments sample_world !! "a2" = Some unit_2B) by compute_done.
    rewrite H in Hapt. by injection Hapt. }
  exists apt'. split; [exact Hapt'|].
  rewrite !Hkeep by discriminate. rewrite Hold. split; compute_done.
Defined.


Lemma assignTenant_then_getAllUsers_witness :
  let lease := LeaseData jan_1 dec_31 in
  let w' := (run (assignTenant (RT := sample_runtime) "u1" "a2" lease)
               sample_world).2 in
  ∃ usr' listed,
    usr' !! "apartmentId" = Some (VStr "a2")
    ∧ (run getAllUsers w').1 = Ok listed
    ∧ In (with_id "u1" usr') listed
    ∧ length listed = 2%nat.
Proof.
  intros lease w'.
  assert (Hok : (run (assignTenant (RT := sample_runtime) "u1" "a2" lease)
                   sample_world).1
                = Ok (spread (obj [("id", VStr "auto0")])
                        (tenancy_record (RT := sample_runtime) "u1" "a2" lease
                           unit_2B 0))) by compute_done.
  destruct (assignTenant_then_getAllUsers (RT := sample_runtime)
              _ _ _ _ _ Hok)
    as (usr' & listed & _ & Hid & Hres & Hin & Hlen).
  exists usr', listed. split; [exact Hid|]. split; [exact Hres|].
  split; [exact Hin|]. rewrite Hlen. compute_done.
Defined.

Lemma unit_numbers_stay_unique_witness :
  unique_unit_numbers
    (run (createApartment (RT := sample_runtime) unit_9Z) small_world).2
  ∧ unique_unit_numbers
      (run (updateApartment (RT := sample_runtime) "a1"
              (obj [("unitNumber", VStr "7C")])) small_world).2.
Proof.
  assert (Hinv : unique_unit_numbers small_world).
  { assert (Hdocs : apartments small_world = {[ "a1" := unit_2B ]})
      by compute_done.
    intros i j d e s Hi Hj _ _ _. unfold apartments in *.
    rewrite Hdocs in Hi, Hj.
    apply lookup_singleton_Some in Hi as [<- _].
    apply lookup_singleton_Some in Hj as [<- _]. reflexivity. }
  destruct (unit_numbers_stay_unique (RT := sample_runtime) small_world Hinv)
    as (Hcreate & Hupdate & _).
  split; [apply Hcreate | apply Hupdate].
Defined.
